(** * Polygon zkEVM plugin: the action handlers, embedded and verified

    The plugin is a flat list of actions ([index.ts]); each action has a
    [validate] and a [handler].  A handler reads settings from the agent
    runtime, may consult the language model, calls a JSON-RPC provider and
    returns an [ActionResult], reporting through an optional callback on the
    way.  Everything a handler does to the outside world (model call,
    provider call, [fetch], callback) is recorded in a trace, so that
    statements such as "no RPC call is issued" are statements about that
    trace.  An exception that leaves a handler is an outcome of its own.

    Strings are byte strings holding the UTF-8 text of the source.  The
    JavaScript operations used on them here (concatenation, a search for an
    ASCII pattern, slicing of hexadecimal text) agree with their byte-wise
    counterparts.  Logger calls have no effect on results and are left out. *)

From Stdlib Require Import String Ascii List ZArith Bool Lia.
From Stdlib Require DecimalString HexadecimalString.
Import ListNotations.
Open Scope string_scope.
Set Warnings "-register-all".

(** ** JavaScript values *)

Module Js.

(** Values as they come back from the model, from settings and from the
    JSON-RPC endpoint.  [JNum] holds an integer-valued number. *)
Inductive JsVal : Type :=
| JUndefined
| JNull
| JBool (b : bool)
| JNum (n : Z)
| JBigInt (n : Z)
| JStr (s : string)
| JArr (items : list JsVal)
| JObj (fields : list (string * JsVal)).

(** ToBoolean. *)
Definition truthy (v : JsVal) : bool :=
  match v with
  | JUndefined | JNull => false
  | JBool b => b
  | JNum n | JBigInt n => negb (n =? 0)%Z
  | JStr s => negb (s =? EmptyString)
  | JArr _ | JObj _ => true
  end.

Inductive JsType := TUndefined | TObject | TBoolean | TNumber | TBigint | TString.

Definition typeof (v : JsVal) : JsType :=
  match v with
  | JUndefined => TUndefined
  | JNull | JArr _ | JObj _ => TObject
  | JBool _ => TBoolean
  | JNum _ => TNumber
  | JBigInt _ => TBigint
  | JStr _ => TString
  end.

Definition is_number (v : JsVal) : bool :=
  match typeof v with TNumber => true | _ => false end.

Fixpoint lookup {A : Type} (k : string) (o : list (string * A)) : option A :=
  match o with
  | [] => None
  | (k', v) :: rest => if k' =? k then Some v else lookup k rest
  end.

(** [v?.k], and [v.k] on a value known not to be null or undefined: the own
    property of an object, [undefined] otherwise. *)
Definition get (k : string) (v : JsVal) : JsVal :=
  match v with
  | JObj fields => match lookup k fields with Some x => x | None => JUndefined end
  | _ => JUndefined
  end.

(** [a || b] *)
Definition or_else (a b : JsVal) : JsVal := if truthy a then a else b.

Definition nl : string := String (ascii_of_nat 10) EmptyString.
Definition dquote : string := String (ascii_of_nat 34) EmptyString.

Definition dec (z : Z) : string := DecimalString.NilZero.string_of_int (Z.to_int z).

(** [n.toString(16)] of an integer-valued number. *)
Definition toString16 (z : Z) : string :=
  HexadecimalString.NilZero.string_of_int (Z.to_hex_int z).

Definition join (sep : string) (l : list string) : string := String.concat sep l.

(** ToString, as a template literal applies it. *)
Fixpoint to_string (v : JsVal) : string :=
  match v with
  | JUndefined => "undefined"
  | JNull => "null"
  | JBool true => "true"
  | JBool false => "false"
  | JNum n | JBigInt n => dec n
  | JStr s => s
  | JArr items =>
      join "," (map (fun x => match x with
                              | JUndefined | JNull => EmptyString
                              | _ => to_string x
                              end) items)
  | JObj _ => "[object Object]"
  end.

(** A double that is not known to be an integer is kept as the expression
    that computes it; IEEE arithmetic is not interpreted. *)
Inductive Double : Type :=
| DLit (z : Z)
| DOfBigInt (z : Z)
| DMul (a b : Double)
| DDiv (a b : Double).

Definition d1e9 : Double := DLit 1000000000.

(** A property of a result object: a value, or a double. *)
Inductive Slot : Type :=
| V (v : JsVal)
| D (d : Double).

Definition Obj := list (string * Slot).

Record Error := mkError { message : string }.

(** What a [throw] carries: an [Error] instance or any other value. *)
Inductive Thrown : Type :=
| TError (e : Error)
| TValue (v : JsVal).

(** [error instanceof Error ? error.message : String(error)] *)
Definition message_or_string (t : Thrown) : string :=
  match t with
  | TError e => message e
  | TValue v => to_string v
  end.

(** [error instanceof Error ? error : new Error(String(error))] *)
Definition as_Error (t : Thrown) : Error :=
  match t with
  | TError e => e
  | TValue v => mkError (to_string v)
  end.

Inductive Outcome (A : Type) : Type :=
| Returns (a : A)
| Throws (t : Thrown).
Arguments Returns {A} a.
Arguments Throws {A} t.

End Js.
Import Js.

(** ** The outside world *)

Inductive Template :=
| getGasPriceTemplate
| getStorageAtTemplate
| blockDetailsByNumberTemplate
| getBatchInfoTemplate.

Definition State := option JsVal.

Record Memory := { content_text : option string }.

Record IAgentRuntime := {
  getSetting : string -> JsVal;
  (** [useModel(ModelType.OBJECT_LARGE, { prompt: composePromptFromState({ state, template }) })] *)
  useModel : State -> Template -> Outcome JsVal
}.

Record Content := { c_text : string; c_content : Obj }.

(** The host's callback appends the content to the conversation. *)
Variant HandlerCallback := hostCallback.

Record FeeData := {
  fee_gasPrice : option Z;
  maxFeePerGas : option Z;
  maxPriorityFeePerGas : option Z
}.

Record TransactionReceipt := {
  r_hash : string;
  r_blockNumber : Z;
  r_from : string;
  r_to : option string;
  r_status : option Z;
  r_gasUsed : Z;
  r_gasPrice : Z;
  r_index : Z;
  r_contractAddress : option string;
  r_logs : list JsVal
}.

Record Response := {
  ok : bool;
  status : Z;
  statusText : string;
  json : Outcome JsVal
}.

Record JsonRpcProvider := { url : JsVal }.

Inductive RpcCall :=
| Send (method : string) (params : list JsVal)
| GetFeeData
| GetStorage (address position blockTag : JsVal)
| GetTransactionReceipt (hash : string)
| GetBlock (block : JsVal) (prefetchTxs : bool).

(** What lies outside the repository's sources: the ethers provider, [fetch],
    the helper [callLLMWithTimeout] of utils/llmHelpers, the clock and the
    built-ins whose results are text of numbers. *)
Record Env := {
  rpc_send : JsVal -> string -> list JsVal -> Outcome JsVal;
  rpc_getFeeData : JsVal -> Outcome FeeData;
  rpc_getStorage : JsVal -> JsVal -> JsVal -> JsVal -> Outcome string;
  rpc_getTransactionReceipt : JsVal -> string -> Outcome (option TransactionReceipt);
  (** the block's JSON form ([toJSON]) when there is a block *)
  rpc_getBlock : JsVal -> JsVal -> bool -> Outcome (option (list (string * JsVal)));
  net_fetch : string -> JsVal -> Outcome Response;
  llm_extract : IAgentRuntime -> State -> Template -> string -> Outcome JsVal;
  Date_now : Z;
  BigInt : JsVal -> Outcome Z;
  toFixed : Double -> nat -> string;
  JSON_stringify : JsVal -> string
}.

Inductive Event :=
| EvModel (t : Template)
| EvRpc (url : JsVal) (call : RpcCall)
| EvFetch (url : string) (body : JsVal)
| EvCallback (c : Content).

Definition Trace := list Event.

(** ** Handler computations: a trace and an outcome *)

Definition M (A : Type) : Type := Trace -> Outcome A * Trace.

Definition ret {A} (a : A) : M A := fun tr => (Returns a, tr).

Definition throw {A} (t : Thrown) : M A := fun tr => (Throws t, tr).

Definition bind {A B} (m : M A) (k : A -> M B) : M B :=
  fun tr =>
    match m tr with
    | (Returns a, tr') => k a tr'
    | (Throws t, tr') => (Throws t, tr')
    end.

Definition try_catch {A} (body : M A) (handler : Thrown -> M A) : M A :=
  fun tr =>
    match body tr with
    | (Returns a, tr') => (Returns a, tr')
    | (Throws t, tr') => handler t tr'
    end.

Definition emit (e : Event) : M unit := fun tr => (Returns tt, (tr ++ [e])%list).

Definition lift {A} (o : Outcome A) : M A := fun tr => (o, tr).

Definition run {A} (m : M A) : Outcome A * Trace := m [].

Declare Scope handler_scope.
Delimit Scope handler_scope with handler.
Notation "x <- m ;; k" := (bind m (fun x => k))
  (at level 61, m at next level, right associativity) : handler_scope.
Notation "m ;;; k" := (bind m (fun _ => k))
  (at level 61, right associativity) : handler_scope.
Open Scope handler_scope.

Definition throw_Error {A} (msg : string) : M A := throw (TError (mkError msg)).

(** Modelled from the spec: utils/llmHelpers.ts is not among the sources.
    The spec has every action "ask an external LLM to extract structured
    parameters from free text"; the helper consults the model once for the
    given template and resolves to the extracted object, or throws. *)
Definition callLLMWithTimeout (env : Env) (runtime : IAgentRuntime) (state : State)
    (template : Template) (actionName : string) : M JsVal :=
  emit (EvModel template) ;;;
  lift (llm_extract env runtime state template actionName).

(** [runtime.useModel(ModelType.OBJECT_LARGE, ...)] *)
Definition runtime_useModel (runtime : IAgentRuntime) (state : State)
    (template : Template) : M JsVal :=
  emit (EvModel template) ;;;
  lift (useModel runtime state template).

(** [callback(c)] with no guard: calling [undefined] is a TypeError. *)
Definition call (callback : option HandlerCallback) (c : Content) : M unit :=
  match callback with
  | Some _ => emit (EvCallback c)
  | None => throw_Error "callback is not a function"
  end.

(** [if (callback) { callback(c) }] *)
Definition call_if_present (callback : option HandlerCallback) (c : Content) : M unit :=
  match callback with
  | Some _ => emit (EvCallback c)
  | None => ret tt
  end.

Definition provider_send (env : Env) (p : JsonRpcProvider) (method : string)
    (params : list JsVal) : M JsVal :=
  emit (EvRpc (url p) (Send method params)) ;;;
  lift (rpc_send env (url p) method params).

Definition provider_getFeeData (env : Env) (p : JsonRpcProvider) : M FeeData :=
  emit (EvRpc (url p) GetFeeData) ;;;
  lift (rpc_getFeeData env (url p)).

Definition provider_getStorage (env : Env) (p : JsonRpcProvider)
    (address position blockTag : JsVal) : M string :=
  emit (EvRpc (url p) (GetStorage address position blockTag)) ;;;
  lift (rpc_getStorage env (url p) address position blockTag).

Definition provider_getTransactionReceipt (env : Env) (p : JsonRpcProvider)
    (hash : string) : M (option TransactionReceipt) :=
  emit (EvRpc (url p) (GetTransactionReceipt hash)) ;;;
  lift (rpc_getTransactionReceipt env (url p) hash).

Definition provider_getBlock (env : Env) (p : JsonRpcProvider) (block : JsVal)
    (prefetchTxs : bool) : M (option (list (string * JsVal))) :=
  emit (EvRpc (url p) (GetBlock block prefetchTxs)) ;;;
  lift (rpc_getBlock env (url p) block prefetchTxs).

Definition fetch (env : Env) (u : string) (body : JsVal) : M Response :=
  emit (EvFetch u body) ;;;
  lift (net_fetch env u body).

(** ** Text helpers *)

Module Text.

Definition is_hex_digit (c : ascii) : bool :=
  let n := nat_of_ascii c in
  ((48 <=? n) && (n <=? 57) || (97 <=? n) && (n <=? 102) || (65 <=? n) && (n <=? 70))%nat.

Fixpoint all_hex (s : string) : bool :=
  match s with
  | EmptyString => true
  | String c r => is_hex_digit c && all_hex r
  end.

(** The first [n] characters of [s], when there are [n] and all of them are
    hexadecimal digits. *)
Fixpoint hex_run (n : nat) (s : string) : option string :=
  match n with
  | O => Some EmptyString
  | S n' =>
      match s with
      | String c r =>
          if is_hex_digit c then option_map (String c) (hex_run n' r) else None
      | EmptyString => None
      end
  end.

(** [/0x[a-fA-F0-9]{64}/] matched at the first character of [s]. *)
Definition tx_hash_here (s : string) : option string :=
  match s with
  | String "0" (String "x" r) => option_map (append "0x") (hex_run 64 r)
  | _ => None
  end.

(** [text.match(/0x[a-fA-F0-9]{64}/)]: the leftmost match, [None] for [null]. *)
Fixpoint match_tx_hash (s : string) : option string :=
  match tx_hash_here s with
  | Some h => Some h
  | None =>
      match s with
      | EmptyString => None
      | String _ r => match_tx_hash r
      end
  end.

Fixpoint drop (n : nat) (s : string) : string :=
  match n, s with
  | O, _ => s
  | S n', String _ r => drop n' r
  | S _, EmptyString => EmptyString
  end.

(** [s.slice(-n)] *)
Definition slice_last (n : nat) (s : string) : string :=
  drop (String.length s - n) s.

(** [/^0x[a-fA-F0-9]{40}$/] *)
Definition is_address (s : string) : bool :=
  match s with
  | String "0" (String "x" r) => (String.length r =? 40)%nat && all_hex r
  | _ => false
  end.

Definition hex_value (c : ascii) : Z :=
  let n := Z.of_nat (nat_of_ascii c) in
  (if n <=? 57 then n - 48 else if n <=? 70 then n - 55 else n - 87)%Z.

Definition is_space (c : ascii) : bool :=
  let n := nat_of_ascii c in
  ((n =? 32) || (9 <=? n) && (n <=? 13))%nat.

Fixpoint skip_spaces (s : string) : string :=
  match s with
  | String c r => if is_space c then skip_spaces r else s
  | EmptyString => s
  end.

(** Value of the longest run of hexadecimal digits at the head, if any. *)
Fixpoint hex_prefix (acc : Z) (seen : bool) (s : string) : option Z :=
  match s with
  | String c r =>
      if is_hex_digit c then hex_prefix (acc * 16 + hex_value c)%Z true r
      else if seen then Some acc else None
  | EmptyString => if seen then Some acc else None
  end.

(** [parseInt(s, 16)]; [None] is NaN. *)
Definition parseInt16 (s : string) : option Z :=
  let s1 := skip_spaces s in
  let '(sign, s2) :=
    match s1 with
    | String "-" r => ((-1)%Z, r)
    | String "+" r => (1%Z, r)
    | _ => (1%Z, s1)
    end in
  let s3 :=
    match s2 with
    | String "0" (String "x" r) | String "0" (String "X" r) => r
    | _ => s2
    end in
  option_map (Z.mul sign) (hex_prefix 0 false s3).

(** The loop [for (i = 0; i < hexString.length; i += 2) bytes.push(parseInt(hexString.substr(i, 2), 16))]. *)
Fixpoint hex_pairs (fuel : nat) (s : string) : list (option Z) :=
  match fuel with
  | O => []
  | S fuel' =>
      match s with
      | EmptyString => []
      | String a EmptyString => [parseInt16 (String a EmptyString)]
      | String a (String b r) =>
          parseInt16 (String a (String b EmptyString)) :: hex_pairs fuel' r
      end
  end.

(** [b > 31 && b < 127], false on NaN. *)
Definition printable (b : option Z) : bool :=
  match b with
  | Some z => ((31 <? z) && (z <? 127))%Z
  | None => false
  end.

(** [String.fromCharCode(...bytes)] on the bytes kept by the filter. *)
Fixpoint fromCharCodes (l : list (option Z)) : string :=
  match l with
  | [] => EmptyString
  | Some z :: r => String (ascii_of_nat (Z.to_nat z)) (fromCharCodes r)
  | None :: r => fromCharCodes r
  end.

Fixpoint rev_string (acc s : string) : string :=
  match s with
  | EmptyString => acc
  | String c r => rev_string (String c acc) r
  end.

(** [s.trim()] *)
Definition trim (s : string) : string :=
  rev_string EmptyString (skip_spaces (rev_string EmptyString (skip_spaces s))).

(** [s.startsWith(p)] *)
Fixpoint starts_with (p s : string) : bool :=
  match p, s with
  | EmptyString, _ => true
  | String a p', String b s' => (a =? b)%char && starts_with p' s'
  | String _ _, EmptyString => false
  end.

(** [hay.includes(needle)] *)
Fixpoint contains (needle hay : string) : bool :=
  starts_with needle hay ||
  match hay with
  | EmptyString => false
  | String _ r => contains needle r
  end.

End Text.

(** ** Results *)

Record ActionResult := {
  success : bool;
  text : string;
  values : Obj;
  data : Obj;
  error : option Error
}.

(** [try { ... return r ... } catch { return r' }] followed by more code: the
    block either leaves the handler with a result or hands a value on. *)
Inductive Flow (A : Type) : Type :=
| Return (r : ActionResult)
| Continue (a : A).
Arguments Return {A} r.
Arguments Continue {A} a.

Definition opt_bigint (o : option Z) : JsVal :=
  match o with Some z => JBigInt z | None => JNull end.

Definition opt_string (o : option string) : JsVal :=
  match o with Some s => JStr s | None => JNull end.

Definition FeeData_value (f : FeeData) : JsVal :=
  JObj [("gasPrice", opt_bigint (fee_gasPrice f));
        ("maxFeePerGas", opt_bigint (maxFeePerGas f));
        ("maxPriorityFeePerGas", opt_bigint (maxPriorityFeePerGas f))].

Definition default_alchemy_url : string := "https://polygonzkevm-mainnet.g.alchemy.com/v2".

Definition config_error : string :=
  "ALCHEMY_API_KEY or ZKEVM_RPC_URL is required in configuration.".

(** ** getGasPrice.ts *)

Module GetGasPrice.

Definition name : string := "POLYGON_ZKEVM_GET_GAS_PRICE".

Definition validate (runtime : IAgentRuntime) (message : Memory) (state : State) : bool :=
  let alchemyApiKey := getSetting runtime "ALCHEMY_API_KEY" in
  let zkevmRpcUrl := getSetting runtime "ZKEVM_RPC_URL" in
  if negb (truthy alchemyApiKey) && negb (truthy zkevmRpcUrl) then false else true.

Definition failure (errorMessage : string) (e : Error) : ActionResult :=
  {| success := false;
     text := "❌ " ++ errorMessage;
     values := [("gasPriceRetrieved", V (JBool false));
                ("error", V (JBool true));
                ("errorMessage", V (JStr errorMessage))];
     data := [("actionName", V (JStr "POLYGON_ZKEVM_GET_GAS_PRICE"));
              ("error", V (JStr errorMessage))];
     error := Some e |}.

Definition failure_content (errorMessage : string) : Content :=
  {| c_text := errorMessage;
     c_content := [("error", V (JStr errorMessage)); ("success", V (JBool false))] |}.

Definition transferCost (gasPriceInGwei : Double) : Double :=
  DDiv (DMul gasPriceInGwei (DLit 21000)) d1e9.

Definition swapCost (gasPriceInGwei : Double) : Double :=
  DDiv (DMul gasPriceInGwei (DLit 150000)) d1e9.

(** The response text, from the headline to the cost estimates. *)
Definition response_text (env : Env) (gasPriceInWei : Z) (gasPriceInGwei : Double)
    (methodUsed : string) (feeData : option FeeData) : string :=
  let responseText :=
    "⛽ **Current Gas Price (Polygon zkEVM)**" ++ nl ++ nl ++
    "💸 **Gas Price:** " ++ toFixed env gasPriceInGwei 4 ++ " Gwei (" ++
    dec gasPriceInWei ++ " wei)" ++ nl ++
    "🔗 **Method:** " ++ methodUsed in
  let responseText :=
    match feeData with
    | Some f =>
        let responseText :=
          match maxFeePerGas f with
          | Some m =>
              if (m =? 0)%Z then responseText
              else responseText ++ nl ++ "🔝 **Max Fee Per Gas:** " ++
                   toFixed env (DDiv (DOfBigInt m) d1e9) 4 ++ " Gwei"
          | None => responseText
          end in
        match maxPriorityFeePerGas f with
        | Some m =>
            if (m =? 0)%Z then responseText
            else responseText ++ nl ++ "⚡ **Max Priority Fee:** " ++
                 toFixed env (DDiv (DOfBigInt m) d1e9) 4 ++ " Gwei"
        | None => responseText
        end
    | None => responseText
    end in
  (* Add cost estimates for common operations *)
  responseText ++ nl ++ nl ++ "💰 **Estimated Transaction Costs:**" ++ nl ++
  "📤 Simple Transfer: ~" ++ toFixed env (transferCost gasPriceInGwei) 6 ++ " ETH" ++ nl ++
  "🔄 Token Swap: ~" ++ toFixed env (swapCost gasPriceInGwei) 6 ++ " ETH".

Definition handler (env : Env) (runtime : IAgentRuntime) (message : Memory)
    (state : State) (callback : option HandlerCallback) : M ActionResult :=
  let alchemyApiKey := getSetting runtime "ALCHEMY_API_KEY" in
  let zkevmRpcUrl := getSetting runtime "ZKEVM_RPC_URL" in
  if negb (truthy alchemyApiKey) && negb (truthy zkevmRpcUrl) then
    let errorMessage := config_error in
    call_if_present callback (failure_content errorMessage) ;;;
    ret (failure errorMessage (mkError errorMessage))
  else
    (* Use LLM to validate this is a gas price request *)
    try_catch
      (gasRequestInput <- runtime_useModel runtime state getGasPriceTemplate ;;
       if truthy (get "error" gasRequestInput)
       then throw_Error (to_string (get "error" gasRequestInput))
       else ret tt)
      (fun _ => ret tt) ;;;
    (* Setup provider - prefer Alchemy, fallback to RPC *)
    let zkevmAlchemyUrl :=
      or_else (getSetting runtime "ZKEVM_ALCHEMY_URL") (JStr default_alchemy_url) in
    let '(provider, methodUsed) :=
      if truthy alchemyApiKey
      then ({| url := JStr (to_string zkevmAlchemyUrl ++ "/" ++ to_string alchemyApiKey) |},
            "alchemy")
      else ({| url := zkevmRpcUrl |}, "rpc") in
    try_catch
      (gasPrice <- provider_send env provider "eth_gasPrice" [] ;;
       gasPriceInWei <- lift (BigInt env gasPrice) ;;
       let gasPriceInGwei := DDiv (DOfBigInt gasPriceInWei) d1e9 in
       feeData <- try_catch
                    (f <- provider_getFeeData env provider ;; ret (Some f))
                    (fun _ => ret None) ;;
       let responseText :=
         response_text env gasPriceInWei gasPriceInGwei methodUsed feeData in
       let transferCost := transferCost gasPriceInGwei in
       let swapCost := swapCost gasPriceInGwei in
       call_if_present callback
         {| c_text := responseText;
            c_content := [("success", V (JBool true));
                          ("gasPrice", V (JStr (dec gasPriceInWei)));
                          ("gasPriceGwei", D gasPriceInGwei);
                          ("network", V (JStr "polygon-zkevm"));
                          ("method", V (JStr methodUsed))] |} ;;;
       ret {| success := true;
              text := responseText;
              values := [("gasPriceRetrieved", V (JBool true));
                         ("gasPriceGwei", D gasPriceInGwei)];
              data := [("actionName", V (JStr "POLYGON_ZKEVM_GET_GAS_PRICE"));
                       ("gasPrice", V (JStr (dec gasPriceInWei)));
                       ("gasPriceGwei", D gasPriceInGwei);
                       ("feeData", V (match feeData with
                                      | Some f => FeeData_value f
                                      | None => JUndefined
                                      end));
                       ("network", V (JStr "polygon-zkevm"));
                       ("method", V (JStr methodUsed));
                       ("transferCostEth", D transferCost);
                       ("swapCostEth", D swapCost)];
              error := None |})
      (fun error =>
         let errorMessage := "Failed to retrieve gas price: " ++ message_or_string error in
         call_if_present callback (failure_content errorMessage) ;;;
         ret (failure errorMessage (as_Error error))).

End GetGasPrice.

(** ** getStorageAt.ts *)

Module GetStorageAt.

Definition name : string := "POLYGON_ZKEVM_GET_STORAGE".

Definition validate (runtime : IAgentRuntime) (message : Memory) (state : State) : bool :=
  let alchemyApiKey := getSetting runtime "ALCHEMY_API_KEY" in
  let zkevmRpcUrl := getSetting runtime "ZKEVM_RPC_URL" in
  if negb (truthy alchemyApiKey) && negb (truthy zkevmRpcUrl) then false else true.

Definition failure (errorMessage : string) (e : Error) : ActionResult :=
  {| success := false;
     text := "❌ " ++ errorMessage;
     values := [("storageRetrieved", V (JBool false));
                ("error", V (JBool true));
                ("errorMessage", V (JStr errorMessage))];
     data := [("actionName", V (JStr "POLYGON_ZKEVM_GET_STORAGE"));
              ("error", V (JStr errorMessage))];
     error := Some e |}.

Definition failure_content (errorMessage : string) : Content :=
  {| c_text := errorMessage;
     c_content := [("success", V (JBool false)); ("error", V (JStr errorMessage))] |}.

Definition zero_word : string :=
  "0x0000000000000000000000000000000000000000000000000000000000000000".

(** The "Show as string if it looks like text" block.  Nothing in it throws
    on the 32-byte words a provider returns, so its [catch] is never taken. *)
Definition as_text (storageValue : string) : string :=
  let hexString := Text.drop 2 storageValue in
  let bytes := Text.hex_pairs (String.length hexString) hexString in
  let text := Text.fromCharCodes (filter Text.printable bytes) in
  if (0 <? String.length text)%nat && (0 <? String.length (Text.trim text))%nat
  then "📝 **As Text:** " ++ dquote ++ Text.trim text ++ dquote
  else EmptyString.

(** The "Try to interpret the value" block: what it appends to the response,
    or what [BigInt] throws. *)
Definition interpretation (env : Env) (storageValue : string) : Outcome string :=
  if storageValue =? zero_word then
    Returns "💡 **Interpretation:** Empty/Zero value"
  else
    match BigInt env (JStr storageValue) with
    | Throws t => Throws t
    | Returns bigIntValue =>
        let added1 :=
          if ((0 <? bigIntValue) && (bigIntValue <? 2 ^ 160))%Z then
            let possibleAddress := "0x" ++ Text.slice_last 40 storageValue in
            if Text.is_address possibleAddress
            then "🏠 **Possible Address:** `" ++ possibleAddress ++ "`" ++ nl
            else EmptyString
          else EmptyString in
        let added2 :=
          if (bigIntValue <? 2 ^ 64)%Z
          then "🔢 **As Decimal:** " ++ dec bigIntValue ++ nl
          else EmptyString in
        Returns (added1 ++ added2 ++ as_text storageValue)
    end.

Definition handler (env : Env) (runtime : IAgentRuntime) (message : Memory)
    (state : State) (callback : option HandlerCallback) : M ActionResult :=
  let alchemyApiKey := getSetting runtime "ALCHEMY_API_KEY" in
  let zkevmRpcUrl := getSetting runtime "ZKEVM_RPC_URL" in
  if negb (truthy alchemyApiKey) && negb (truthy zkevmRpcUrl) then
    let errorMessage := config_error in
    call_if_present callback (failure_content errorMessage) ;;;
    ret (failure errorMessage (mkError errorMessage))
  else
    (* Extract storage parameters using LLM with OBJECT_LARGE model *)
    extracted <-
      try_catch
        (storageInput <- callLLMWithTimeout env runtime state getStorageAtTemplate
                           "getStorageAtAction" ;;
         if truthy (get "error" storageInput) then
           throw_Error (to_string (get "error" storageInput))
         else if negb (truthy (get "address" storageInput))
                 || negb (truthy (get "position" storageInput)) then
           throw_Error "Invalid storage parameters received from LLM."
         else ret (Continue storageInput))
        (fun error =>
           let errorMessage :=
             "[getStorageAtAction] Failed to extract storage parameters from input: "
             ++ message_or_string error in
           call_if_present callback (failure_content errorMessage) ;;;
           ret (Return (failure errorMessage (as_Error error)))) ;;
    match extracted with
    | Return r => ret r
    | Continue storageInput =>
        let address := get "address" storageInput in
        let position := get "position" storageInput in
        let blockTag := or_else (get "blockTag" storageInput) (JStr "latest") in
        (* Setup provider - prefer Alchemy, fallback to RPC *)
        let zkevmAlchemyUrl :=
          or_else (getSetting runtime "ZKEVM_ALCHEMY_URL") (JStr default_alchemy_url) in
        let '(provider, methodUsed) :=
          if truthy alchemyApiKey
          then ({| url := JStr (to_string zkevmAlchemyUrl ++ "/" ++ to_string alchemyApiKey) |},
                "alchemy")
          else ({| url := zkevmRpcUrl |}, "rpc") in
        (* Get storage at the specified slot *)
        storageValue <- provider_getStorage env provider address position blockTag ;;
        let responseText :=
          "🗄️ **Storage Value (Polygon zkEVM)**" ++ nl ++ nl ++
          "**Contract:** `" ++ to_string address ++ "`" ++ nl ++
          "**Position:** " ++ to_string position ++ nl ++
          "**Block:** " ++ to_string blockTag ++ nl ++
          "**Value:** `" ++ storageValue ++ "`" ++ nl ++
          "**Method:** " ++ methodUsed ++ nl ++ nl in
        added <- lift (interpretation env storageValue) ;;
        let responseText := responseText ++ added in
        call_if_present callback
          {| c_text := responseText;
             c_content := [("success", V (JBool true));
                           ("storageValue", V (JStr storageValue))] |} ;;;
        ret {| success := true;
               text := responseText;
               values := [("storageRetrieved", V (JBool true));
                          ("storageValue", V (JStr storageValue))];
               data := [("actionName", V (JStr "POLYGON_ZKEVM_GET_STORAGE"));
                        ("address", V address);
                        ("position", V position);
                        ("blockTag", V blockTag);
                        ("storageValue", V (JStr storageValue));
                        ("network", V (JStr "polygon-zkevm"));
                        ("method", V (JStr methodUsed))];
               error := None |}
    end.

End GetStorageAt.

(** ** getTransactionReceipt.ts *)

Module GetTransactionReceipt.

Definition name : string := "POLYGON_ZKEVM_GET_TRANSACTION_RECEIPT".

Definition validate (runtime : IAgentRuntime) (message : Memory) (state : State) : bool :=
  let alchemyApiKey := getSetting runtime "ALCHEMY_API_KEY" in
  let zkevmRpcUrl := getSetting runtime "ZKEVM_RPC_URL" in
  if negb (truthy alchemyApiKey) && negb (truthy zkevmRpcUrl) then false else true.

Definition failure (errText : string) (e : Error) : ActionResult :=
  {| success := false;
     text := "❌ " ++ errText;
     values := [("receiptRetrieved", V (JBool false));
                ("error", V (JBool true));
                ("errorMessage", V (JStr errText))];
     data := [("actionName", V (JStr "POLYGON_ZKEVM_GET_TRANSACTION_RECEIPT"));
              ("error", V (JStr errText))];
     error := Some e |}.

Definition failure_content (errText : string) : Content :=
  {| c_text := errText;
     c_content := [("success", V (JBool false)); ("error", V (JStr errText))] |}.

Definition no_hash_error : string :=
  "Please provide a valid transaction hash (0x... 64 characters) to get the transaction receipt.".

Definition default_rpc_url : string := "https://zkevm-rpc.com".

(** [receipt.status === 1 ? ... : ...] *)
Definition status_label (receipt : TransactionReceipt) : string :=
  match r_status receipt with
  | Some 1%Z => "✅ Success"
  | _ => "❌ Failed"
  end.

Definition receipt_text (env : Env) (txHash : string) (receipt : TransactionReceipt) : string :=
  let gasUsedPercent := "N/A" in
  let effectiveGasPriceGwei :=
    if negb (r_gasPrice receipt =? 0)%Z
    then toFixed env (DDiv (DOfBigInt (r_gasPrice receipt)) d1e9) 2
    else "N/A" in
  let status := status_label receipt in
  let responseText :=
    "Transaction Receipt for " ++ txHash ++ ":" ++ nl ++
    "📋 Hash: " ++ r_hash receipt ++ nl ++
    "🔗 Block: " ++ dec (r_blockNumber receipt) ++ nl ++
    "📍 From: " ++ r_from receipt ++ nl ++
    "📍 To: " ++ to_string (or_else (opt_string (r_to receipt)) (JStr "Contract Creation")) ++ nl ++
    "📊 Status: " ++ status ++ nl ++
    "⛽ Gas Used: " ++ dec (r_gasUsed receipt) ++ " (" ++ gasUsedPercent ++ "% of limit)" ++ nl ++
    "💸 Effective Gas Price: " ++ effectiveGasPriceGwei ++ " Gwei" ++ nl ++
    "🔢 Transaction Index: " ++ dec (r_index receipt) in
  (* Add contract address if it's a contract creation *)
  let responseText :=
    if truthy (opt_string (r_contractAddress receipt))
    then responseText ++ nl ++ "🏗️ Contract Created: "
         ++ to_string (opt_string (r_contractAddress receipt))
    else responseText in
  (* Add logs information *)
  if (0 <? List.length (r_logs receipt))%nat
  then responseText ++ nl ++ "📝 Logs: " ++ dec (Z.of_nat (List.length (r_logs receipt)))
       ++ " events emitted"
  else responseText.

Definition handler (env : Env) (runtime : IAgentRuntime) (message : Memory)
    (state : State) (callback : option HandlerCallback) : M ActionResult :=
  try_catch
    ((* Extract transaction hash from message *)
     text <- match content_text message with
             | Some t => ret t
             | None => throw_Error "Cannot read properties of undefined (reading 'match')"
             end ;;
     let txHashMatch := Text.match_tx_hash text in
     match txHashMatch with
     | None =>
         let errorText := no_hash_error in
         call callback (failure_content errorText) ;;;
         ret (failure errorText (mkError errorText))
     | Some txHash =>
         (* Setup provider - prefer Alchemy, fallback to RPC *)
         let alchemyApiKey := getSetting runtime "ALCHEMY_API_KEY" in
         let provider :=
           if truthy alchemyApiKey
           then {| url := JStr (to_string (or_else (getSetting runtime "ZKEVM_ALCHEMY_URL")
                                                  (JStr default_alchemy_url))
                                ++ "/" ++ to_string alchemyApiKey) |}
           else
             let zkevmRpcUrl :=
               or_else (or_else (getSetting runtime "ZKEVM_RPC_URL")
                                (getSetting runtime "ZKEVM_RPC_URL"))
                       (JStr default_rpc_url) in
             {| url := zkevmRpcUrl |} in
         (* Get transaction receipt *)
         receipt <- provider_getTransactionReceipt env provider txHash ;;
         match receipt with
         | None =>
             let errText := "Transaction receipt not found: " ++ txHash
                            ++ ". The transaction may be pending or does not exist." in
             call callback (failure_content errText) ;;;
             ret (failure errText (mkError errText))
         | Some receipt =>
             let responseText := receipt_text env txHash receipt in
             call callback
               {| c_text := responseText;
                  c_content := [("success", V (JBool true));
                                ("hash", V (JStr (r_hash receipt)))] |} ;;;
             ret {| success := true;
                    text := responseText;
                    values := [("receiptRetrieved", V (JBool true));
                               ("hash", V (JStr (r_hash receipt)))];
                    data := [("actionName", V (JStr "POLYGON_ZKEVM_GET_TRANSACTION_RECEIPT"));
                             ("hash", V (JStr (r_hash receipt)));
                             ("blockNumber", V (JNum (r_blockNumber receipt)))];
                    error := None |}
         end
     end)
    (fun error =>
       let errText := "Error getting transaction receipt: "
                      ++ match error with
                         | TError e => Js.message e
                         | TValue _ => "Unknown error"
                         end in
       call callback (failure_content errText) ;;;
       ret (failure errText (as_Error error))).

End GetTransactionReceipt.

(** ** getBlockDetailsByNumber.ts *)

Module GetBlockDetailsByNumber.

Definition name : string := "POLYGON_ZKEVM_GET_BLOCK_DETAILS_BY_NUMBER".

Definition validate (runtime : IAgentRuntime) (message : Memory) (state : State) : bool :=
  let alchemyApiKey := getSetting runtime "ALCHEMY_API_KEY" in
  let zkevmRpcUrl := getSetting runtime "ZKEVM_RPC_URL" in
  if negb (truthy alchemyApiKey) && negb (truthy zkevmRpcUrl) then false else true.

Definition failure (errorMessage : string) (more : Obj) : ActionResult :=
  {| success := false;
     text := "❌ " ++ errorMessage;
     values := [("blockRetrieved", V (JBool false));
                ("error", V (JBool true));
                ("errorMessage", V (JStr errorMessage))];
     data := ([("actionName", V (JStr "POLYGON_ZKEVM_GET_BLOCK_DETAILS_BY_NUMBER"));
               ("error", V (JStr errorMessage))] ++ more)%list;
     error := Some (mkError errorMessage) |}.

Definition failure_content (errorMessage : string) : Content :=
  {| c_text := errorMessage;
     c_content := [("success", V (JBool false)); ("error", V (JStr errorMessage))] |}.

(** The number held by a value whose [typeof] is "number". *)
Definition number_value (v : JsVal) : Z :=
  match v with JNum n => n | _ => 0%Z end.

Definition request_body (blockNumberHex : string) : JsVal :=
  JObj [("jsonrpc", JStr "2.0");
        ("method", JStr "eth_getBlockByNumber");
        ("params", JArr [JStr blockNumberHex; JBool true]);
        ("id", JNum 1)].

(** The handler's three variables [blockDetails], [methodUsed] and
    [errorMessages].  [blockDetails] is [null] until a block is stored in it,
    and what is stored is never [null] (a truthy [result], or a block):
    [None] stands for [null]. *)
Definition Progress : Type := option JsVal * option string * list string.

(** Step 1 of the handler: the Alchemy attempt. *)
Definition alchemy_attempt (env : Env) (runtime : IAgentRuntime)
    (alchemyApiKey : JsVal) (blockNumberHex : string) : M Progress :=
  if truthy alchemyApiKey then
    try_catch
      (let zkevmAlchemyUrl :=
         or_else (getSetting runtime "ZKEVM_ALCHEMY_URL") (JStr default_alchemy_url) in
       let alchemyUrl := to_string zkevmAlchemyUrl ++ "/" ++ to_string alchemyApiKey in
       response <- fetch env alchemyUrl (request_body blockNumberHex) ;;
       if negb (ok response) then
         throw_Error ("Alchemy API returned status " ++ dec (status response) ++ ": "
                      ++ statusText response)
       else
         data <- lift (json response) ;;
         if truthy (get "error" data) then
           throw_Error ("Alchemy API returned error: "
                        ++ to_string (get "message" (get "error" data)))
         else if truthy (get "result" data) then
           ret (Some (get "result" data), Some "alchemy", [])
         else
           ret (None, None, []))
      (fun error =>
         ret (None, None, ["Alchemy API failed: " ++ message_or_string error]))
  else ret (None, None, []).

(** Step 2: the JSON-RPC fallback. *)
Definition rpc_fallback (env : Env) (zkevmRpcUrl blockNumber : JsVal)
    (st : Progress) : M Progress :=
  let '(blockDetails, methodUsed, errorMessages) := st in
  match blockDetails with
  | None =>
      if truthy zkevmRpcUrl then
        try_catch
          (let provider := {| url := zkevmRpcUrl |} in
           block <- provider_getBlock env provider blockNumber true ;;
           match block with
           | Some fields => ret (Some (JObj fields), Some "rpc", errorMessages)
           | None => ret (blockDetails, methodUsed, errorMessages)
           end)
          (fun error =>
             ret (blockDetails, methodUsed,
                  (errorMessages
                   ++ [("JSON-RPC fallback failed: " ++ message_or_string error)%string])%list))
      else ret st
  | Some _ => ret st
  end.

Definition success_text (env : Env) (blockNumber blockDetails zkevmFields : JsVal)
    (methodUsed : option string) : string :=
  "Here are the details for Polygon zkEVM block " ++ to_string blockNumber
  ++ " (via " ++ to_string (opt_string methodUsed) ++ "):" ++ nl ++ nl
  ++ "```json" ++ nl ++ JSON_stringify env blockDetails ++ nl ++ "```" ++ nl
  ++ "ZK-specific fields: " ++ JSON_stringify env zkevmFields.

Definition not_found_message (blockNumber : JsVal) (errorMessages : list string) : string :=
  "Failed to retrieve details for Polygon zkEVM block " ++ to_string blockNumber
  ++ " using both Alchemy and RPC. Errors: " ++ join "; " errorMessages
  ++ ". It's possible the block number is invalid or the block does not exist yet.".

(** "Handle result and errors": the end of the handler. *)
Definition conclude (env : Env) (callback : option HandlerCallback) (blockNumber : JsVal)
    (st : Progress) : M ActionResult :=
  let '(blockDetails, methodUsed, errorMessages) := st in
  match blockDetails with
  | Some blockDetails =>
      let zkevmFields :=
        JObj [("zkProverVersion", get "zkProverVersion" blockDetails);
              ("batchIndex", get "batchIndex" blockDetails)] in
      let successText := success_text env blockNumber blockDetails zkevmFields methodUsed in
      call_if_present callback
        {| c_text := successText;
           c_content := [("success", V (JBool true)); ("blockNumber", V blockNumber)] |} ;;;
      ret {| success := true;
             text := successText;
             values := [("blockRetrieved", V (JBool true));
                        ("blockNumber", V blockNumber)];
             data := [("actionName", V (JStr "POLYGON_ZKEVM_GET_BLOCK_DETAILS_BY_NUMBER"));
                      ("block", V blockDetails);
                      ("zkevmFields", V zkevmFields);
                      ("network", V (JStr "polygon-zkevm"));
                      ("timestamp", V (JNum (Date_now env)));
                      ("method", V (opt_string methodUsed))];
             error := None |}
  | None =>
      (* Both methods failed or block not found *)
      let errorMessage := not_found_message blockNumber errorMessages in
      call_if_present callback
        {| c_text := "❌ " ++ errorMessage;
           c_content := [("success", V (JBool false));
                         ("error", V (JStr errorMessage))] |} ;;;
      ret (failure errorMessage
             [("errors", V (JArr (map JStr errorMessages)));
              ("blockNumber", V blockNumber)])
  end.

Definition handler (env : Env) (runtime : IAgentRuntime) (message : Memory)
    (state : State) (callback : option HandlerCallback) : M ActionResult :=
  let alchemyApiKey := getSetting runtime "ALCHEMY_API_KEY" in
  let zkevmRpcUrl := getSetting runtime "ZKEVM_RPC_URL" in
  if negb (truthy alchemyApiKey) && negb (truthy zkevmRpcUrl) then
    let errorMessage := config_error in
    call_if_present callback (failure_content errorMessage) ;;;
    ret (failure errorMessage [])
  else
    (* First try using OBJECT_LARGE model type for structured output *)
    extracted <-
      try_catch
        (blockNumberInput <- callLLMWithTimeout env runtime state
                               blockDetailsByNumberTemplate
                               "getBlockDetailsByNumberAction" ;;
         if truthy (get "error" blockNumberInput)
         then throw_Error (to_string (get "error" blockNumberInput))
         else ret (Continue blockNumberInput))
        (fun error =>
           let errorMessage := "[getBlockDetailsByNumberAction] OBJECT_LARGE model failed" in
           call_if_present callback (failure_content errorMessage) ;;;
           ret (Return (failure errorMessage []))) ;;
    match extracted with
    | Return r => ret r
    | Continue blockNumberInput =>
        (* Extract the actual block number from the LLM response *)
        let blockNumber := get "blockNumber" blockNumberInput in
        if negb (truthy blockNumber) || negb (is_number blockNumber) then
          let errorMessage := "Invalid block number extracted from input" in
          call_if_present callback (failure_content errorMessage) ;;;
          ret (failure errorMessage [])
        else
          (* Convert block number to hex format for API calls *)
          let blockNumberHex := "0x" ++ toString16 (number_value blockNumber) in
          st1 <- alchemy_attempt env runtime alchemyApiKey blockNumberHex ;;
          st2 <- rpc_fallback env zkevmRpcUrl blockNumber st1 ;;
          conclude env callback blockNumber st2
    end.

End GetBlockDetailsByNumber.

(** ** getBatchInfo.ts *)

Module GetBatchInfo.

Definition name : string := "POLYGON_ZKEVM_GET_BATCH_INFO".

Definition validate (runtime : IAgentRuntime) (message : Memory) (state : State) : bool :=
  let alchemyApiKey := getSetting runtime "ALCHEMY_API_KEY" in
  let zkevmRpcUrl := getSetting runtime "ZKEVM_RPC_URL" in
  if negb (truthy alchemyApiKey) && negb (truthy zkevmRpcUrl) then false else true.

(** The marker this file puts before its failure texts, byte for byte. *)
Definition failure_mark : string := "‚ùå".

Definition failure (errorMessage : string) (e : Error) (more : Obj) : ActionResult :=
  {| success := false;
     text := failure_mark ++ " " ++ errorMessage;
     values := [("batchRetrieved", V (JBool false));
                ("error", V (JBool true));
                ("errorMessage", V (JStr errorMessage))];
     data := ([("actionName", V (JStr "POLYGON_ZKEVM_GET_BATCH_INFO"));
               ("error", V (JStr errorMessage))] ++ more)%list;
     error := Some e |}.

Definition failure_content (errorMessage : string) : Content :=
  {| c_text := errorMessage;
     c_content := [("success", V (JBool false)); ("error", V (JStr errorMessage))] |}.

Record BatchInfo := {
  batchNumber : JsVal;
  blockRange : JsVal;
  batch_status : JsVal;
  timestamp : JsVal;
  transactionCount : JsVal;
  method : string
}.

Definition BatchInfo_value (b : BatchInfo) : JsVal :=
  JObj [("batchNumber", batchNumber b);
        ("blockRange", blockRange b);
        ("status", batch_status b);
        ("timestamp", timestamp b);
        ("transactionCount", transactionCount b);
        ("method", JStr (method b))].

Definition response_text (batchInfo : BatchInfo) (errorMessages : list string) : string :=
  "üì¶ **Batch Information (Polygon zkEVM)**" ++ nl ++ nl ++
  "**Batch Number:** " ++ to_string (batchNumber batchInfo) ++ nl ++
  "**Status:** " ++ to_string (batch_status batchInfo) ++ nl ++
  "**Block Range:** "
  ++ (if truthy (blockRange batchInfo)
      then to_string (get "start" (blockRange batchInfo)) ++ " - "
           ++ to_string (get "end" (blockRange batchInfo))
      else "N/A") ++ nl ++
  "**Transaction Count:** "
  ++ to_string (or_else (transactionCount batchInfo) (JStr "N/A")) ++ nl ++
  "**Method:** " ++ method batchInfo ++ nl ++ nl ++
  (if (0 <? List.length errorMessages)%nat
   then nl ++ "**Warnings:**" ++ nl
        ++ join nl (map (fun msg => "- " ++ msg) errorMessages)
   else EmptyString).

Definition handler (env : Env) (runtime : IAgentRuntime) (message : Memory)
    (state : State) (callback : option HandlerCallback) : M ActionResult :=
  let alchemyApiKey := getSetting runtime "ALCHEMY_API_KEY" in
  let zkevmRpcUrl := getSetting runtime "ZKEVM_RPC_URL" in
  if negb (truthy alchemyApiKey) && negb (truthy zkevmRpcUrl) then
    let errorMessage := config_error in
    call_if_present callback (failure_content errorMessage) ;;;
    ret (failure errorMessage (mkError errorMessage) [])
  else
    (* Extract batch number using LLM with OBJECT_LARGE model *)
    extracted <-
      try_catch
        (batchInput <- callLLMWithTimeout env runtime state getBatchInfoTemplate
                         "getBatchInfoAction" ;;
         if truthy (get "error" batchInput) then
           throw_Error (to_string (get "error" batchInput))
         else if negb (truthy (get "batchNumber" batchInput))
                 || negb (is_number (get "batchNumber" batchInput)) then
           throw_Error "Invalid batch number received from LLM."
         else ret (Continue batchInput))
        (fun error =>
           let errorMessage :=
             "[getBatchInfoAction] Failed to extract batch number from input: "
             ++ message_or_string error in
           call_if_present callback (failure_content errorMessage) ;;;
           ret (Return (failure errorMessage (as_Error error) []))) ;;
    match extracted with
    | Return r => ret r
    | Continue batchInput =>
        let batchNumber := get "batchNumber" batchInput in
        (* Setup provider - prefer Alchemy, fallback to RPC *)
        let zkevmAlchemyUrl :=
          or_else (getSetting runtime "ZKEVM_ALCHEMY_URL") (JStr default_alchemy_url) in
        let '(provider, methodUsed) :=
          if truthy alchemyApiKey
          then ({| url := JStr (to_string zkevmAlchemyUrl ++ "/" ++ to_string alchemyApiKey) |},
                "alchemy")
          else ({| url := zkevmRpcUrl |}, "rpc") in
        (* Try to get batch information *)
        fetched <-
          try_catch
            (batchData <-
               try_catch
                 (provider_send env provider "zkevm_getBatchByNumber" [batchNumber])
                 (fun batchError =>
                    try_catch
                      (provider_send env provider "zkevm_getBatch" [batchNumber])
                      (fun altError =>
                         throw_Error "Batch information not available via RPC methods")) ;;
             if truthy batchData then
               ret (Some {| batchNumber := batchNumber;
                            blockRange := or_else (get "blockRange" batchData) JUndefined;
                            batch_status := or_else (get "status" batchData) (JStr "unknown");
                            timestamp := or_else (get "timestamp" batchData)
                                                 (JNum (Date_now env));
                            transactionCount :=
                              or_else (get "transactionCount" batchData) (JNum 0);
                            method := methodUsed |},
                    @nil string)
             else ret (None, []))
            (fun error =>
               let errorMsg := "Failed to get batch info: " ++ message_or_string error in
               ret (None, [errorMsg])) ;;
        let '(batchInfo, errorMessages) := fetched in
        match batchInfo with
        | Some batchInfo =>
            let responseText := response_text batchInfo errorMessages in
            call_if_present callback
              {| c_text := responseText;
                 c_content := [("success", V (JBool true)); ("batchNumber", V batchNumber)] |} ;;;
            ret {| success := true;
                   text := responseText;
                   values := [("batchRetrieved", V (JBool true));
                              ("batchNumber", V batchNumber)];
                   data := [("actionName", V (JStr "POLYGON_ZKEVM_GET_BATCH_INFO"));
                            ("batchInfo", V (BatchInfo_value batchInfo));
                            ("network", V (JStr "polygon-zkevm"));
                            ("timestamp", V (JNum (Date_now env)));
                            ("method", V (JStr methodUsed))];
                   error := None |}
        | None =>
            let errorMessage :=
              "Failed to retrieve batch information for batch " ++ to_string batchNumber
              ++ ". " ++ join "; " errorMessages in
            call_if_present callback
              {| c_text := failure_mark ++ " " ++ errorMessage;
                 c_content := [("success", V (JBool false));
                               ("error", V (JStr errorMessage))] |} ;;;
            ret (failure errorMessage (mkError errorMessage)
                   [("errors", V (JArr (map JStr errorMessages)));
                    ("batchNumber", V batchNumber)])
        end
    end.

End GetBatchInfo.

(** ** The registered actions ([index.ts]) whose sources are at hand *)

Inductive Action :=
| GasPrice
| StorageAt
| Receipt
| BlockDetailsByNumber
| BatchInfo.

Definition action_name (a : Action) : string :=
  match a with
  | GasPrice => GetGasPrice.name
  | StorageAt => GetStorageAt.name
  | Receipt => GetTransactionReceipt.name
  | BlockDetailsByNumber => GetBlockDetailsByNumber.name
  | BatchInfo => GetBatchInfo.name
  end.

Definition action_validate (a : Action) : IAgentRuntime -> Memory -> State -> bool :=
  match a with
  | GasPrice => GetGasPrice.validate
  | StorageAt => GetStorageAt.validate
  | Receipt => GetTransactionReceipt.validate
  | BlockDetailsByNumber => GetBlockDetailsByNumber.validate
  | BatchInfo => GetBatchInfo.validate
  end.

Definition action_handler (a : Action)
    : Env -> IAgentRuntime -> Memory -> State -> option HandlerCallback -> M ActionResult :=
  match a with
  | GasPrice => GetGasPrice.handler
  | StorageAt => GetStorageAt.handler
  | Receipt => GetTransactionReceipt.handler
  | BlockDetailsByNumber => GetBlockDetailsByNumber.handler
  | BatchInfo => GetBatchInfo.handler
  end.

(** The handlers that open with the configuration check. *)
Definition checks_configuration (a : Action) : bool :=
  match a with Receipt => false | _ => true end.

(** ** Observations on traces and results *)

(** A setting is present when its value is truthy: for text, non-empty. *)
Definition present (runtime : IAgentRuntime) (key : string) : bool :=
  truthy (getSetting runtime key).

Definition is_network (e : Event) : bool :=
  match e with
  | EvRpc _ _ | EvFetch _ _ => true
  | _ => false
  end.

Definition is_model (e : Event) : bool :=
  match e with
  | EvModel _ => true
  | _ => false
  end.

(** The JSON-RPC requests of a trace, through ethers or through [fetch]. *)
Definition network_calls (tr : Trace) : Trace := filter is_network tr.

Definition model_calls (tr : Trace) : Trace := filter is_model tr.

(** No request goes out before the model has been consulted. *)
Fixpoint model_consulted_first (tr : Trace) : bool :=
  match tr with
  | [] => true
  | EvModel _ :: _ => true
  | EvCallback _ :: rest => model_consulted_first rest
  | EvRpc _ _ :: _ | EvFetch _ _ :: _ => false
  end.

(** Every provider request of the trace went to [u], and none through [fetch]. *)
Fixpoint all_rpc_to (u : JsVal) (tr : Trace) : Prop :=
  match tr with
  | [] => True
  | EvRpc u' _ :: rest => u' = u /\ all_rpc_to u rest
  | EvFetch _ _ :: _ => False
  | _ :: rest => all_rpc_to u rest
  end.

(** The callback was invoked exactly once, with this text and [success: false]. *)
Definition reported_failure (msg : string) (tr : Trace) : Prop :=
  exists c, tr = [EvCallback c] /\ c_text c = msg
            /\ lookup "success" (c_content c) = Some (V (JBool false)).

(** The gateway address built from the settings, and the plain one. *)
Definition alchemy_url (runtime : IAgentRuntime) : string :=
  to_string (or_else (getSetting runtime "ZKEVM_ALCHEMY_URL") (JStr default_alchemy_url))
  ++ "/" ++ to_string (getSetting runtime "ALCHEMY_API_KEY").

Definition selected_url (runtime : IAgentRuntime) : JsVal :=
  if present runtime "ALCHEMY_API_KEY"
  then JStr (alchemy_url runtime)
  else getSetting runtime "ZKEVM_RPC_URL".

Definition selected_method (runtime : IAgentRuntime) : string :=
  if present runtime "ALCHEMY_API_KEY" then "alchemy" else "rpc".

(** The text has a 0x-prefixed run of 64 hexadecimal digits somewhere. *)
Definition has_tx_hash (t : string) : Prop :=
  exists pre h post,
    t = pre ++ "0x" ++ h ++ post /\ String.length h = 64%nat /\ Text.all_hex h = true.

(** The text has this line in it. *)
Definition has_line (line x : string) : Prop :=
  exists before after, x = before ++ line ++ after.

(** The failure shape: marked text, [values.error] with a message, the
    action's name, an error value. *)
Definition failure_shape (mark : string) (a : Action) (r : ActionResult) : Prop :=
  Text.starts_with mark (text r) = true
  /\ lookup "error" (values r) = Some (V (JBool true))
  /\ (exists m, lookup "errorMessage" (values r) = Some (V (JStr m)))
  /\ lookup "actionName" (data r) = Some (V (JStr (action_name a)))
  /\ error r <> None.

Definition success_shape (a : Action) (r : ActionResult) : Prop :=
  lookup "actionName" (data r) = Some (V (JStr (action_name a))).

(** The mark each source file writes before a failure text. *)
Definition failure_mark (a : Action) : string :=
  match a with
  | BatchInfo => GetBatchInfo.failure_mark
  | _ => "❌"
  end.



(** What the gateway's answer gives the block-details handler: the [result]
    of an ok response whose body parses and has no [error]. *)
Definition alchemy_yields (o : Outcome Response) : option JsVal :=
  match o with
  | Returns response =>
      if ok response then
        match json response with
        | Returns data =>
            if truthy (get "error" data) then None
            else if truthy (get "result" data) then Some (get "result" data)
            else None
        | Throws _ => None
        end
      else None
  | Throws _ => None
  end.

(** The endpoint of the receipt handler. *)
Definition receipt_url (runtime : IAgentRuntime) : JsVal :=
  if present runtime "ALCHEMY_API_KEY"
  then JStr (alchemy_url runtime)
  else or_else (getSetting runtime "ZKEVM_RPC_URL")
               (JStr GetTransactionReceipt.default_rpc_url).

Definition method_of (r : ActionResult) : option Slot := lookup "method" (data r).

(** What every trace of an action looks like: where its requests go, and
    that the model comes first where it is consulted at all. *)
Definition trace_ok (a : Action) (rt : IAgentRuntime) (tr : Trace) : Prop :=
  match a with
  | Receipt => model_calls tr = [] /\ all_rpc_to (receipt_url rt) tr
  | BlockDetailsByNumber =>
      model_consulted_first tr = true
      /\ match network_calls tr with
         | [] => True
         | [EvFetch u _] => present rt "ALCHEMY_API_KEY" = true /\ u = alchemy_url rt
         | [EvFetch u _; EvRpc u' (GetBlock _ true)] =>
             present rt "ALCHEMY_API_KEY" = true /\ u = alchemy_url rt
             /\ present rt "ZKEVM_RPC_URL" = true /\ u' = getSetting rt "ZKEVM_RPC_URL"
         | [EvRpc u' (GetBlock _ true)] =>
             present rt "ALCHEMY_API_KEY" = false /\ u' = getSetting rt "ZKEVM_RPC_URL"
         | _ => False
         end
  | _ => model_consulted_first tr = true /\ all_rpc_to (selected_url rt) tr
  end.

(** The method a successful result reports. *)
Definition method_ok (a : Action) (rt : IAgentRuntime) (r : ActionResult) (tr : Trace) : Prop :=
  match a with
  | Receipt => method_of r = None
  | BlockDetailsByNumber =>
      match network_calls tr with
      | [EvFetch _ _] => method_of r = Some (V (JStr "alchemy"))
      | [_; EvRpc _ _] | [EvRpc _ _] => method_of r = Some (V (JStr "rpc"))
      | _ => False
      end
  | _ => method_of r = Some (V (JStr (selected_method rt)))
  end.

(** What holds of every run of a handler.  An exception leaves only the
    storage handler, or the receipt handler when it has no callback. *)
Definition run_ok (a : Action) (rt : IAgentRuntime) (cb : option HandlerCallback)
    (p : Outcome ActionResult * Trace) : Prop :=
  let '(o, tr) := p in
  trace_ok a rt tr
  /\ match o with
     | Returns r =>
         if success r
         then success_shape a r /\ method_ok a rt r tr
         else failure_shape (failure_mark a) a r
     | Throws _ => a = StorageAt \/ (a = Receipt /\ cb = None)
     end.

(** What the block-details handler is to request for block [n], by the
    selection rule: the gateway when the key is present, then the plain
    endpoint when the gateway gave no block and the endpoint is set. *)
Definition block_requests (env : Env) (rt : IAgentRuntime) (n : Z) : Trace :=
  let body := GetBlockDetailsByNumber.request_body ("0x" ++ toString16 n) in
  let viaAlchemy := EvFetch (alchemy_url rt) body in
  let viaRpc := EvRpc (getSetting rt "ZKEVM_RPC_URL") (GetBlock (JNum n) true) in
  if present rt "ALCHEMY_API_KEY" then
    match alchemy_yields (net_fetch env (alchemy_url rt) body) with
    | Some _ => [viaAlchemy]
    | None => if present rt "ZKEVM_RPC_URL" then [viaAlchemy; viaRpc] else [viaAlchemy]
    end
  else [viaRpc].

(** The block it is to find, and the method it is to report. *)
Definition block_found (env : Env) (rt : IAgentRuntime) (n : Z) : option (JsVal * string) :=
  let body := GetBlockDetailsByNumber.request_body ("0x" ++ toString16 n) in
  match (if present rt "ALCHEMY_API_KEY"
         then alchemy_yields (net_fetch env (alchemy_url rt) body)
         else None) with
  | Some b => Some (b, "alchemy")
  | None =>
      if present rt "ZKEVM_RPC_URL" then
        match rpc_getBlock env (getSetting rt "ZKEVM_RPC_URL") (JNum n) true with
        | Returns (Some fields) => Some (JObj fields, "rpc")
        | _ => None
        end
      else None
  end.

(** ** Concrete surroundings for worked cases *)

Module Sample.

Definition settings (alchemy rpc : JsVal) : string -> JsVal :=
  fun key =>
    if key =? "ALCHEMY_API_KEY" then alchemy
    else if key =? "ZKEVM_RPC_URL" then rpc
    else JUndefined.

(** A runtime whose model answers with [answer]. *)
Definition runtime (alchemy rpc : JsVal) (answer : Outcome JsVal) : IAgentRuntime :=
  {| getSetting := settings alchemy rpc;
     useModel := fun _ _ => answer |}.

Definition unreachable {A} : Outcome A := Throws (TError (mkError "network unreachable")).

(** An endpoint where every request fails, with the given extraction helper. *)
Definition offline (answer : Outcome JsVal) : Env :=
  {| rpc_send := fun _ _ _ => unreachable;
     rpc_getFeeData := fun _ => unreachable;
     rpc_getStorage := fun _ _ _ _ => unreachable;
     rpc_getTransactionReceipt := fun _ _ => unreachable;
     rpc_getBlock := fun _ _ _ => unreachable;
     net_fetch := fun _ _ => unreachable;
     llm_extract := fun _ _ _ _ => answer;
     Date_now := 0;
     BigInt := fun v => match v with
                        | JNum n | JBigInt n => Returns n
                        | _ => Throws (TError (mkError "Cannot convert to a BigInt"))
                        end;
     toFixed := fun _ _ => "0";
     JSON_stringify := to_string |}.

Definition tx_hash : string :=
  "0x1234567890abcdef1234567890abcdef1234567890abcdef1234567890abcdef".

Definition receipt (st : option Z) : TransactionReceipt :=
  {| r_hash := tx_hash;
     r_blockNumber := 12345;
     r_from := "0xabc123";
     r_to := Some "0xdef456";
     r_status := st;
     r_gasUsed := 21000;
     r_gasPrice := 20000000000;
     r_index := 0;
     r_contractAddress := None;
     r_logs := [] |}.

(** An endpoint that knows one receipt and one gas price. *)
Definition online (answer : Outcome JsVal) (found : option TransactionReceipt) : Env :=
  {| rpc_send := fun _ m _ => if m =? "eth_gasPrice" then Returns (JNum 1000000000)
                              else Returns JNull;
     rpc_getFeeData := fun _ => unreachable;
     rpc_getStorage := fun _ _ _ _ => Returns GetStorageAt.zero_word;
     rpc_getTransactionReceipt := fun _ h => Returns (if h =? tx_hash then found else None);
     rpc_getBlock := fun _ _ _ => Returns None;
     net_fetch := fun _ _ => unreachable;
     llm_extract := fun _ _ _ _ => answer;
     Date_now := 0;
     BigInt := BigInt (offline answer);
     toFixed := fun _ _ => "0";
     JSON_stringify := to_string |}.

Definition say (t : string) : Memory := {| content_text := Some t |}.

Definition no_credentials : IAgentRuntime :=
  runtime JUndefined JUndefined (Returns JUndefined).

Definition with_key : IAgentRuntime :=
  runtime (JStr "demo-key") JUndefined (Returns JUndefined).

Definition with_key_and_url : IAgentRuntime :=
  runtime (JStr "demo-key") (JStr "https://zkevm-rpc.com") (Returns JUndefined).

(** The same key, and a signing key beside it. *)
Definition with_key_and_signer : IAgentRuntime :=
  {| getSetting := fun key => if key =? "PRIVATE_KEY" then JStr "0x01"
                              else settings (JStr "demo-key") JUndefined key;
     useModel := fun _ _ => Returns JUndefined |}.


Definition contract : string := "0x742d35Cc6634C0532925a3b8D4C9db96C4b4d8b6".

Definition storage_request (position : JsVal) : JsVal :=
  JObj [("address", JStr contract); ("position", position)].

Definition block_request (n : Z) : JsVal := JObj [("blockNumber", JNum n)].

Definition batch_request (n : Z) : JsVal := JObj [("batchNumber", JNum n)].

(** An endpoint whose gateway is down and whose plain RPC knows every block. *)
Definition gateway_down (answer : Outcome JsVal) : Env :=
  {| rpc_send := fun _ _ _ => unreachable;
     rpc_getFeeData := fun _ => unreachable;
     rpc_getStorage := fun _ _ _ _ => unreachable;
     rpc_getTransactionReceipt := fun _ _ => unreachable;
     rpc_getBlock := fun _ n _ => Returns (Some [("number", n)]);
     net_fetch := fun _ _ => unreachable;
     llm_extract := fun _ _ _ _ => answer;
     Date_now := 0;
     BigInt := BigInt (offline answer);
     toFixed := fun _ _ => "0";
     JSON_stringify := to_string |}.

End Sample.

(** ** Further observations *)

Definition is_callback (e : Event) : bool :=
  match e with
  | EvCallback _ => true
  | _ => false
  end.

(** The callback invocations of a trace. *)
Definition callbacks (tr : Trace) : Trace := filter is_callback tr.

(** The last thing that happened was a callback invocation. *)
Fixpoint ends_with_callback (tr : Trace) : bool :=
  match tr with
  | [] => false
  | [EvCallback _] => true
  | _ :: rest => ends_with_callback rest
  end.

(** The flag each file sets in [values] beside the outcome. *)
Definition retrieved_flag (a : Action) : string :=
  match a with
  | GasPrice => "gasPriceRetrieved"
  | StorageAt => "storageRetrieved"
  | Receipt => "receiptRetrieved"
  | BlockDetailsByNumber => "blockRetrieved"
  | BatchInfo => "batchRetrieved"
  end.

(** The most requests one invocation of an action sends. *)
Definition max_requests (a : Action) : nat :=
  match a with
  | StorageAt | Receipt => 1
  | GasPrice | BlockDetailsByNumber | BatchInfo => 2
  end.

(** What a callback saw of a result: once, last, and with the result's own
    [success]. *)
Definition callback_agrees (tr : Trace) (r : ActionResult) : Prop :=
  ends_with_callback tr = true
  /\ match callbacks tr with
     | [EvCallback c] => lookup "success" (c_content c) = Some (V (JBool (success r)))
     | _ => False
     end.

(** How a result agrees with itself: the flag in [values] is [success], a
    success has no error value, and a failure carries one message in its
    text, in [values] and in [data]. *)
Definition result_coherent (a : Action) (r : ActionResult) : Prop :=
  lookup (retrieved_flag a) (values r) = Some (V (JBool (success r)))
  /\ if success r
     then error r = None /\ lookup "error" (values r) = None
     else error r <> None
          /\ exists m, lookup "errorMessage" (values r) = Some (V (JStr m))
                       /\ lookup "error" (data r) = Some (V (JStr m))
                       /\ text r = failure_mark a ++ " " ++ m.

(** How every run behaves towards the outside: few requests and never the
    same one twice, the model asked at most once, the callback told once
    about what is returned, and no success without a request. *)
Definition run_tidy (a : Action) (cb : option HandlerCallback)
    (p : Outcome ActionResult * Trace) : Prop :=
  let '(o, tr) := p in
  (List.length (network_calls tr) <=? max_requests a)%nat = true
  /\ match network_calls tr with
     | [e1; e2] => e1 <> e2
     | _ => True
     end
  /\ (List.length (model_calls tr) <=? 1)%nat = true
  /\ match cb with
     | None => callbacks tr = []
     | Some _ =>
         match o with
         | Returns r => callback_agrees tr r
         | Throws _ => callbacks tr = []
         end
     end
  /\ match o with
     | Returns r =>
         result_coherent a r
         /\ (success r = true -> network_calls tr <> [])
     | Throws _ => True
     end.

Fixpoint all_chars (P : ascii -> bool) (s : string) : bool :=
  match s with
  | EmptyString => true
  | String c r => P c && all_chars P r
  end.

(** A character from the space to the tilde. *)
Definition printable_char (c : ascii) : bool :=
  let n := nat_of_ascii c in ((32 <=? n) && (n <=? 126))%nat.

Definition is_not (x : ascii) (c : ascii) : bool := negb (c =? x)%char.

(** Fee data that adds no line to the response: none at all, or fees that
    are null or zero. *)
Definition fees_silent (o : Outcome FeeData) : Prop :=
  match o with
  | Throws _ => True
  | Returns f =>
      (maxFeePerGas f = None \/ maxFeePerGas f = Some 0%Z)
      /\ (maxPriorityFeePerGas f = None \/ maxPriorityFeePerGas f = Some 0%Z)
  end.

(** What [data.feeData] holds after the [try] around [getFeeData]. *)
Definition fee_data_of (o : Outcome FeeData) : JsVal :=
  match o with
  | Throws _ => JUndefined
  | Returns f => FeeData_value f
  end.



(** The batch the handler builds from the endpoint's answer. *)
Definition batch_of (env : Env) (rt : IAgentRuntime) (n : Z) (batchData : JsVal)
    : GetBatchInfo.BatchInfo :=
  {| GetBatchInfo.batchNumber := JNum n;
     GetBatchInfo.blockRange := or_else (get "blockRange" batchData) JUndefined;
     GetBatchInfo.batch_status := or_else (get "status" batchData) (JStr "unknown");
     GetBatchInfo.timestamp := or_else (get "timestamp" batchData) (JNum (Date_now env));
     GetBatchInfo.transactionCount := or_else (get "transactionCount" batchData) (JNum 0);
     GetBatchInfo.method := selected_method rt |}.

(** The two requests of the batch handler. *)
Definition batch_by_number (rt : IAgentRuntime) (n : Z) : Event :=
  EvRpc (selected_url rt) (Send "zkevm_getBatchByNumber" [JNum n]).

Definition batch_alternative (rt : IAgentRuntime) (n : Z) : Event :=
  EvRpc (selected_url rt) (Send "zkevm_getBatch" [JNum n]).

(** A world put together from the answers of its parts. *)
Module Cases.

Definition world (send : string -> Outcome JsVal) (fees : Outcome FeeData)
    (stored : Outcome string) (found : Outcome (option TransactionReceipt))
    (block : Outcome (option (list (string * JsVal)))) (fetched : Outcome Response)
    (answer : Outcome JsVal) : Env :=
  {| rpc_send := fun _ m _ => send m;
     rpc_getFeeData := fun _ => fees;
     rpc_getStorage := fun _ _ _ _ => stored;
     rpc_getTransactionReceipt := fun _ _ => found;
     rpc_getBlock := fun _ _ _ => block;
     net_fetch := fun _ _ => fetched;
     llm_extract := fun _ _ _ _ => answer;
     Date_now := 1700000000000;
     BigInt := BigInt (Sample.offline answer);
     toFixed := fun _ _ => "0";
     JSON_stringify := to_string |}.

Definition down {A} : Outcome A := Throws (TError (mkError "connection refused")).

Definition no_fees : FeeData :=
  {| fee_gasPrice := Some 1000000000%Z; maxFeePerGas := None;
     maxPriorityFeePerGas := Some 0%Z |}.

Definition server_error : Response :=
  {| ok := false; status := 500; statusText := "Internal Server Error";
     json := Returns JNull |}.



(** The receipt of a contract creation on a chain without gas price. *)
Definition creation : TransactionReceipt :=
  {| r_hash := Sample.tx_hash;
     r_blockNumber := 12345;
     r_from := "0xabc123";
     r_to := None;
     r_status := Some 1%Z;
     r_gasUsed := 21000;
     r_gasPrice := 0;
     r_index := 0;
     r_contractAddress := Some Sample.contract;
     r_logs := [] |}.

(** What [BigInt] makes of a number and of a 0x-prefixed word. *)
Definition word_value (v : JsVal) : Outcome Z :=
  match v with
  | JNum n | JBigInt n => Returns n
  | JStr (String "0" (String "x" r)) =>
      match (if Text.all_hex r then Text.hex_prefix 0 false r else None) with
      | Some z => Returns z
      | None => Throws (TError (mkError "Cannot convert to a BigInt"))
      end
  | _ => Throws (TError (mkError "Cannot convert to a BigInt"))
  end.

(** An endpoint whose every slot holds [word]. *)
Definition storing (word : string) (answer : Outcome JsVal) : Env :=
  {| rpc_send := fun _ _ _ => down;
     rpc_getFeeData := fun _ => down;
     rpc_getStorage := fun _ _ _ _ => Returns word;
     rpc_getTransactionReceipt := fun _ _ => down;
     rpc_getBlock := fun _ _ _ => down;
     net_fetch := fun _ _ => down;
     llm_extract := fun _ _ _ _ => answer;
     Date_now := 1700000000000;
     BigInt := word_value;
     toFixed := fun _ _ => "0";
     JSON_stringify := to_string |}.

(** A word that holds an address. *)
Definition address_word : string :=
  "000000000000000000000000742d35Cc6634C0532925a3b8D4C9db96C4b4d8b6".

(** An answer of the model with its numbers as text. *)
Definition numbers_as_text : JsVal :=
  JObj [("blockNumber", JStr "12345"); ("batchNumber", JStr "12345")].

(** An endpoint that knows batches by their second method only. *)
Definition second_method_only (batch : JsVal) (answer : Outcome JsVal) : Env :=
  world (fun m => if m =? "zkevm_getBatch" then Returns batch else down)
        down down down down down answer.

(** An endpoint with a gas price and without fees. *)
Definition plain_price : Env :=
  world (fun _ => Returns (JNum 1000000000)) (Returns no_fees) down down down down
        (Returns JUndefined).

(** An endpoint that answers [null] to every method. *)
Definition null_price : Env :=
  world (fun _ => Returns JNull) down down down down down (Returns JUndefined).

(** A gateway that answers 500, and nothing else to ask. *)
Definition http_error (answer : Outcome JsVal) : Env :=
  world (fun _ => down) down down down down (Returns server_error) answer.



(** An endpoint that answers [batch] to every method. *)
Definition first_method (batch : JsVal) (answer : Outcome JsVal) : Env :=
  world (fun _ => Returns batch) down down down down down answer.

End Cases.

(** * Properties *)

(** ** The hash pattern *)

Lemma hex_run_sound (n : nat) (s x : string) :
  Text.hex_run n s = Some x ->
  String.length x = n /\ Text.all_hex x = true /\ exists post, s = x ++ post.
Proof.
  revert s x. induction n as [|n IH]; intros s x H; cbn in H.
  - inversion H; subst. repeat split. exists s. reflexivity.
  - destruct s as [|c r]; [discriminate|].
    destruct (Text.is_hex_digit c) eqn:Hc; [|discriminate].
    destruct (Text.hex_run n r) as [y|] eqn:Hr; [|discriminate].
    inversion H; subst. destruct (IH _ _ Hr) as (Hl & Hh & post & ->).
    cbn. rewrite Hc, Hh, Hl. repeat split. exists post. reflexivity.
Qed.

Lemma hex_run_complete (x post : string) :
  Text.all_hex x = true -> Text.hex_run (String.length x) (x ++ post) = Some x.
Proof.
  induction x as [|c x IH]; cbn; intros H; [reflexivity|].
  apply andb_true_iff in H. destruct H as [Hc Hx].
  rewrite Hc, (IH Hx). reflexivity.
Qed.

Lemma tx_hash_here_sound (s h : string) :
  Text.tx_hash_here s = Some h ->
  exists x post, s = h ++ post /\ h = "0x" ++ x
                 /\ String.length x = 64%nat /\ Text.all_hex x = true.
Proof.
  unfold Text.tx_hash_here. intros H.
  destruct s as [|c0 [|c1 r]]; try discriminate;
    try (destruct c0 as [[] [] [] [] [] [] [] []]; discriminate).
  destruct (ascii_dec c0 "0") as [->|N0];
    [|destruct c0 as [[] [] [] [] [] [] [] []]; try discriminate; congruence].
  destruct (ascii_dec c1 "x") as [->|N1];
    [|destruct c1 as [[] [] [] [] [] [] [] []]; try discriminate; congruence].
  destruct (Text.hex_run 64 r) as [x|] eqn:Hr; [|discriminate].
  cbn in H. inversion H; subst.
  destruct (hex_run_sound _ _ _ Hr) as (Hl & Hh & post & ->).
  exists x, post. repeat split; assumption.
Qed.

Lemma tx_hash_here_complete (x post : string) :
  String.length x = 64%nat -> Text.all_hex x = true ->
  Text.tx_hash_here ("0x" ++ x ++ post) = Some ("0x" ++ x).
Proof.
  intros Hl Hh. cbn [append Text.tx_hash_here].
  rewrite <- Hl, (hex_run_complete x post Hh). reflexivity.
Qed.

Lemma match_tx_hash_sound (t h : string) :
  Text.match_tx_hash t = Some h ->
  exists pre x post, t = pre ++ h ++ post /\ h = "0x" ++ x
                     /\ String.length x = 64%nat /\ Text.all_hex x = true.
Proof.
  induction t as [|c r IH]; intros H.
  - cbn in H. discriminate.
  - cbn [Text.match_tx_hash] in H.
    destruct (Text.tx_hash_here (String c r)) as [h'|] eqn:Hh.
    + inversion H; subst.
      destruct (tx_hash_here_sound _ _ Hh) as (x & post & Hs & Hx & Hl & Ha).
      exists EmptyString, x, post. cbn [append]. repeat split; assumption.
    + destruct (IH H) as (pre & x & post & -> & Hx & Hl & Ha).
      exists (String c pre), x, post. repeat split; assumption.
Qed.

Lemma match_tx_hash_step (c : ascii) (r : string) :
  Text.match_tx_hash (String c r)
  = match Text.tx_hash_here (String c r) with
    | Some h => Some h
    | None => Text.match_tx_hash r
    end.
Proof. reflexivity. Qed.

Lemma match_tx_hash_complete (t : string) :
  has_tx_hash t -> exists h, Text.match_tx_hash t = Some h.
Proof.
  intros (pre & x & post & -> & Hl & Hh).
  induction pre as [|c pre IH].
  - exists ("0x" ++ x).
    change (EmptyString ++ "0x" ++ x ++ post) with (String "0" ("x" ++ x ++ post)).
    rewrite match_tx_hash_step.
    change (String "0" ("x" ++ x ++ post)) with ("0x" ++ x ++ post).
    rewrite (tx_hash_here_complete _ post Hl Hh). reflexivity.
  - destruct IH as (h & IH).
    change (String c pre ++ "0x" ++ x ++ post) with (String c (pre ++ "0x" ++ x ++ post)).
    rewrite match_tx_hash_step, IH.
    destruct (Text.tx_hash_here (String c (pre ++ "0x" ++ x ++ post))) as [h'|];
      eauto.
Qed.

(** The pattern finds a hash exactly in the texts that have one. *)
Lemma match_tx_hash_none_iff (t : string) :
  Text.match_tx_hash t = None <-> ~ has_tx_hash t.
Proof.
  split.
  - intros Hn Hh. destruct (match_tx_hash_complete t Hh) as (h & H). congruence.
  - intros Hn. destruct (Text.match_tx_hash t) as [h|] eqn:H; [|reflexivity].
    exfalso. apply Hn.
    destruct (match_tx_hash_sound _ _ H) as (pre & x & post & -> & -> & Hl & Ha).
    exists pre, x, post. repeat split; assumption.
Qed.

(** ** Handler computations *)

(** Unfolds the handler operations, leaving the outside world's answers as
    the only things to case on. *)
Ltac expose :=
  cbv [run bind ret throw throw_Error try_catch emit lift
       call call_if_present callLLMWithTimeout runtime_useModel
       provider_send provider_getFeeData provider_getStorage
       provider_getTransactionReceipt provider_getBlock fetch] in *.

(** Cases on the first answer the computation in the goal depends on. *)
Ltac case_answer :=
  match goal with
  | |- context [match ?x with _ => _ end] =>
      lazymatch x with
      | context [match _ with _ => _ end] => fail
      | _ => destruct x eqn:?
      end
  | |- context [if ?x then _ else _] =>
      lazymatch x with
      | context [if _ then _ else _] => fail
      | _ => destruct x eqn:?
      end
  end.

Ltac unfold_handlers :=
  cbv [action_handler GetGasPrice.handler GetStorageAt.handler
       GetTransactionReceipt.handler GetBlockDetailsByNumber.handler
       GetBatchInfo.handler] in *.

Ltac paths := repeat (case_answer; cbv beta iota zeta delta [app negb andb orb url]).

Ltac unfold_steps :=
  cbv [GetBlockDetailsByNumber.alchemy_attempt GetBlockDetailsByNumber.rpc_fallback
       GetBlockDetailsByNumber.conclude] in *.

(** Settles [run_ok] at the end of one path; [Hk] and [Hu] say whether the
    two credentials are present. *)
Ltac leaf Hk Hu :=
  cbv [run_ok trace_ok method_ok selected_url selected_method receipt_url alchemy_url
       present or_else url];
  rewrite ?Hk, ?Hu;
  cbv [GetGasPrice.failure GetStorageAt.failure GetTransactionReceipt.failure
       GetBlockDetailsByNumber.failure GetBatchInfo.failure
       success text values data error
       success_shape failure_shape failure_mark GetBatchInfo.failure_mark action_name
       GetGasPrice.name GetStorageAt.name GetTransactionReceipt.name
       GetBlockDetailsByNumber.name GetBatchInfo.name
       method_of lookup String.eqb Ascii.eqb Bool.eqb andb
       network_calls model_calls filter is_network is_model
       model_consulted_first all_rpc_to app];
  repeat match goal with
         | |- _ /\ _ => split
         | |- exists _, _ => eexists
         | |- _ <> _ => discriminate
         | |- True => exact I
         | |- _ = _ => reflexivity
         | |- _ \/ _ => solve [left; repeat split; reflexivity
                              | right; repeat split; reflexivity]
         end.

(** Runs a handler along every path and settles [run_ok] on each. *)
Ltac all_paths rt cb :=
  let P := fresh "P" in
  let Hk := fresh "Hk" in
  let Hu := fresh "Hu" in
  match goal with |- run_ok ?a _ _ _ => set (P := run_ok a rt cb) end;
  unfold_handlers; unfold_steps; expose;
  destruct (truthy (getSetting rt "ALCHEMY_API_KEY")) eqn:Hk;
  destruct (truthy (getSetting rt "ZKEVM_RPC_URL")) eqn:Hu;
  cbv beta iota zeta delta [app negb andb orb url];
  paths; subst P; leaf Hk Hu.

(** ** Every run of every handler *)

Section Runs.

Variables (env : Env) (rt : IAgentRuntime) (msg : Memory) (st : State).
Variable cb : option HandlerCallback.

Lemma gas_price_run_ok : run_ok GasPrice rt cb (run (GetGasPrice.handler env rt msg st cb)).
Proof. all_paths rt cb. Qed.

Lemma storage_run_ok : run_ok StorageAt rt cb (run (GetStorageAt.handler env rt msg st cb)).
Proof. all_paths rt cb. Qed.

Lemma receipt_run_ok :
  run_ok Receipt rt cb (run (GetTransactionReceipt.handler env rt msg st cb)).
Proof. all_paths rt cb. Qed.

Lemma block_details_run_ok :
  run_ok BlockDetailsByNumber rt cb (run (GetBlockDetailsByNumber.handler env rt msg st cb)).
Proof. all_paths rt cb. Qed.

Lemma batch_info_run_ok : run_ok BatchInfo rt cb (run (GetBatchInfo.handler env rt msg st cb)).
Proof. all_paths rt cb. Qed.

Lemma every_run_ok (a : Action) : run_ok a rt cb (run (action_handler a env rt msg st cb)).
Proof.
  destruct a; cbn [action_handler].
  - apply gas_price_run_ok.
  - apply storage_run_ok.
  - apply receipt_run_ok.
  - apply block_details_run_ok.
  - apply batch_info_run_ok.
Qed.

End Runs.

(** No exception leaves a handler, the storage handler and the receipt
    handler without a callback apart. *)
Lemma exceptions_stay_inside
    (a : Action) (env : Env) (rt : IAgentRuntime) (msg : Memory) (st : State)
    (cb : option HandlerCallback) :
  a <> StorageAt ->
  (a = Receipt -> cb <> None) ->
  exists r tr, run (action_handler a env rt msg st cb) = (Returns r, tr).
Proof.
  intros Ha Hcb.
  pose proof (every_run_ok env rt msg st cb a) as H.
  destruct (run (action_handler a env rt msg st cb)) as [[r | t] tr].
  - eauto.
  - exfalso. destruct H as [_ [H | [H1 H2]]]; [exact (Ha H) | exact (Hcb H1 H2)].
Qed.

(** The shape of what the handlers return, each file with its own mark. *)
Lemma result_shapes
    (a : Action) (env : Env) (rt : IAgentRuntime) (msg : Memory) (st : State)
    (cb : option HandlerCallback) (r : ActionResult) (tr : Trace) :
  run (action_handler a env rt msg st cb) = (Returns r, tr) ->
  (success r = false -> failure_shape (failure_mark a) a r)
  /\ (success r = true -> success_shape a r).
Proof.
  intros Hrun.
  pose proof (every_run_ok env rt msg st cb a) as H.
  rewrite Hrun in H. destruct H as [_ H].
  destruct (success r); split; intros E; try discriminate E; tauto.
Qed.

(** The block-details handler requests what the selection rule says, and
    reports the method of the endpoint that gave the block. *)
Lemma block_details_selection
    (env : Env) (rt : IAgentRuntime) (msg : Memory) (st : State)
    (cb : option HandlerCallback) (v : JsVal) (n : Z) :
  (present rt "ALCHEMY_API_KEY" = true \/ present rt "ZKEVM_RPC_URL" = true) ->
  llm_extract env rt st blockDetailsByNumberTemplate "getBlockDetailsByNumberAction"
  = Returns v ->
  truthy (get "error" v) = false ->
  get "blockNumber" v = JNum n ->
  n <> 0%Z ->
  exists r tr,
    run (GetBlockDetailsByNumber.handler env rt msg st cb) = (Returns r, tr)
    /\ network_calls tr = block_requests env rt n
    /\ match block_found env rt n with
       | Some (b, m) =>
           success r = true /\ method_of r = Some (V (JStr m))
           /\ lookup "block" (data r) = Some (V b)
       | None =>
           success r = false
           /\ exists errs,
                text r = "❌ " ++ GetBlockDetailsByNumber.not_found_message (JNum n) errs
                /\ lookup "errors" (data r) = Some (V (JArr (map JStr errs)))
       end.
Proof.
  unfold present. intros Hcfg Hllm Herr Hnum Hn.
  assert (Hc : negb (truthy (getSetting rt "ALCHEMY_API_KEY"))
               && negb (truthy (getSetting rt "ZKEVM_RPC_URL")) = false).
  { destruct Hcfg as [H | H]; rewrite H; cbn; auto using andb_false_r. }
  assert (Ht : truthy (JNum n) = true).
  { cbn. apply negb_true_iff, Z.eqb_neq, Hn. }
  cbv [block_requests block_found alchemy_yields alchemy_url present].
  unfold_handlers. rewrite Hc. expose. rewrite Hllm.
  cbv beta iota zeta delta [app]. rewrite Herr. cbv beta iota zeta.
  rewrite Hnum, Ht.
  cbv beta iota zeta delta [negb orb is_number typeof GetBlockDetailsByNumber.number_value].
  unfold_steps. expose.
  destruct (truthy (getSetting rt "ALCHEMY_API_KEY")) eqn:Hk;
    destruct (truthy (getSetting rt "ZKEVM_RPC_URL")) eqn:Hu;
    try (destruct Hcfg; discriminate);
    cbv beta iota zeta delta [app negb andb orb url];
    paths;
    (do 2 eexists; split; [reflexivity|]);
    (split; [reflexivity|]);
    first [ repeat split; reflexivity
          | split; [reflexivity | eexists; split; reflexivity] ].
Qed.

(** ** Configuration *)

(** C7. For each action, [validate] is true exactly when ALCHEMY_API_KEY or
    ZKEVM_RPC_URL is present; two runtimes that agree on these two settings
    get the same verdict whatever the message, the state and the other
    settings (PRIVATE_KEY among them) are. *)
Theorem validate_iff_credential_present
    (a : Action) (rt rt' : IAgentRuntime) (m m' : Memory) (s s' : State) :
  (action_validate a rt m s = true
   <-> present rt "ALCHEMY_API_KEY" = true \/ present rt "ZKEVM_RPC_URL" = true)
  /\ (getSetting rt "ALCHEMY_API_KEY" = getSetting rt' "ALCHEMY_API_KEY" ->
      getSetting rt "ZKEVM_RPC_URL" = getSetting rt' "ZKEVM_RPC_URL" ->
      action_validate a rt m s = action_validate a rt' m' s').
Proof.
  split.
  - unfold present.
    destruct a;
      cbv [action_validate GetGasPrice.validate GetStorageAt.validate
           GetTransactionReceipt.validate GetBlockDetailsByNumber.validate
           GetBatchInfo.validate];
      destruct (truthy (getSetting rt "ALCHEMY_API_KEY"));
      destruct (truthy (getSetting rt "ZKEVM_RPC_URL")); cbn [negb andb];
      intuition congruence.
  - intros Hk Hu.
    destruct a;
      cbv [action_validate GetGasPrice.validate GetStorageAt.validate
           GetTransactionReceipt.validate GetBlockDetailsByNumber.validate
           GetBatchInfo.validate];
      rewrite Hk, Hu; reflexivity.
Qed.

(** C2, as amended.  In the gas-price, storage, block-details and batch
    handlers, with neither ALCHEMY_API_KEY nor ZKEVM_RPC_URL present the
    handler returns a failure whose text contains the configuration
    message and whose error value carries it; a supplied callback is invoked
    once with the message and [success: false]; the model is not consulted
    and no request goes out. *)
Theorem missing_configuration_reported
    (a : Action) (env : Env) (rt : IAgentRuntime) (msg : Memory) (st : State)
    (cb : option HandlerCallback) :
  checks_configuration a = true ->
  present rt "ALCHEMY_API_KEY" = false ->
  present rt "ZKEVM_RPC_URL" = false ->
  exists r tr,
    run (action_handler a env rt msg st cb) = (Returns r, tr)
    /\ success r = false
    /\ Text.contains config_error (text r) = true
    /\ error r = Some (mkError config_error)
    /\ network_calls tr = [] /\ model_calls tr = []
    /\ match cb with
       | Some _ => reported_failure config_error tr
       | None => tr = []
       end.
Proof.
  unfold present. intros Ha Hk Hu.
  destruct a; try discriminate Ha;
    cbv [action_handler GetGasPrice.handler GetStorageAt.handler
         GetBlockDetailsByNumber.handler GetBatchInfo.handler];
    rewrite Hk, Hu; cbn [negb andb]; expose;
    destruct cb; cbn [app];
    (eexists; eexists; split; [reflexivity|]);
    (repeat split; try reflexivity);
    (eexists; repeat split; reflexivity).
Qed.

(** ** The model step *)


(** C9.  A zero among the extracted parameters is turned away before any
    request: the storage handler reports an extraction failure when the
    position is the number 0 or the address is the empty string, the
    block-details handler reports "Invalid block number extracted from input"
    when the block number is 0, and the batch handler likewise reports an
    extraction failure for batch number 0. *)
Theorem zero_parameters_rejected
    (env : Env) (rt : IAgentRuntime) (msg : Memory) (st : State)
    (cb : option HandlerCallback) (v : JsVal) :
  (present rt "ALCHEMY_API_KEY" = true \/ present rt "ZKEVM_RPC_URL" = true) ->
  (llm_extract env rt st getStorageAtTemplate "getStorageAtAction" = Returns v ->
   get "position" v = JNum 0 \/ get "address" v = JStr EmptyString ->
   exists r tr m,
     run (GetStorageAt.handler env rt msg st cb) = (Returns r, tr)
     /\ success r = false
     /\ text r = "❌ [getStorageAtAction] Failed to extract storage parameters from input: " ++ m
     /\ network_calls tr = [])
  /\ (llm_extract env rt st blockDetailsByNumberTemplate "getBlockDetailsByNumberAction"
      = Returns v ->
      truthy (get "error" v) = false ->
      get "blockNumber" v = JNum 0 ->
      exists r tr,
        run (GetBlockDetailsByNumber.handler env rt msg st cb) = (Returns r, tr)
        /\ success r = false
        /\ text r = "❌ Invalid block number extracted from input"
        /\ network_calls tr = [])
  /\ (llm_extract env rt st getBatchInfoTemplate "getBatchInfoAction" = Returns v ->
      get "batchNumber" v = JNum 0 ->
      exists r tr m,
        run (GetBatchInfo.handler env rt msg st cb) = (Returns r, tr)
        /\ success r = false
        /\ text r = GetBatchInfo.failure_mark
                    ++ " [getBatchInfoAction] Failed to extract batch number from input: " ++ m
        /\ network_calls tr = []).
Proof.
  unfold present. intros Hcfg.
  assert (Hc : negb (truthy (getSetting rt "ALCHEMY_API_KEY"))
               && negb (truthy (getSetting rt "ZKEVM_RPC_URL")) = false).
  { destruct Hcfg as [H | H]; rewrite H; cbn; auto using andb_false_r. }
  split; [|split].
  - intros Hllm Hzero.
    unfold_handlers. rewrite Hc. expose. rewrite Hllm.
    cbv beta iota zeta delta [app].
    destruct (truthy (get "error" v)); cbv beta iota zeta.
    + destruct cb; cbv beta iota zeta delta [app];
        (do 3 eexists; repeat split; reflexivity).
    + assert (Hz : negb (truthy (get "address" v)) || negb (truthy (get "position" v)) = true).
      { destruct Hzero as [H | H]; rewrite H; cbn; auto using orb_true_r. }
      rewrite Hz.
      destruct cb; cbv beta iota zeta delta [app];
        (do 3 eexists; repeat split; reflexivity).
  - intros Hllm Herr Hzero.
    unfold_handlers. rewrite Hc. expose. rewrite Hllm.
    cbv beta iota zeta delta [app]. rewrite Herr. cbv beta iota zeta.
    rewrite Hzero. cbn [truthy negb orb Z.eqb].
    destruct cb; cbv beta iota zeta delta [app];
      (do 2 eexists; repeat split; reflexivity).
  - intros Hllm Hzero.
    unfold_handlers. rewrite Hc. expose. rewrite Hllm.
    cbv beta iota zeta delta [app].
    destruct (truthy (get "error" v)); cbv beta iota zeta.
    + destruct cb; cbv beta iota zeta delta [app];
        (do 3 eexists; repeat split; reflexivity).
    + rewrite Hzero. cbn [truthy negb orb Z.eqb].
      destruct cb; cbv beta iota zeta delta [app];
        (do 3 eexists; repeat split; reflexivity).
Qed.

(** ** Where the parameters come from *)


(** ** Provider selection *)

(** C5, as amended.  The gas-price, storage and batch handlers send every
    request to the gateway address (ZKEVM_ALCHEMY_URL or the default,
    then "/" and the key) when ALCHEMY_API_KEY is present and to
    ZKEVM_RPC_URL otherwise, and their successful results report "alchemy"
    or "rpc" accordingly.  The receipt handler selects the same way, with
    https://zkevm-rpc.com standing in for an absent ZKEVM_RPC_URL, and
    reports no method.  The block-details handler asks the gateway first
    when the key is present, asks ZKEVM_RPC_URL when the gateway gave no
    block and that setting is present, and reports the method of the
    endpoint that gave the block. *)
Theorem provider_selection
    (env : Env) (rt : IAgentRuntime) (msg : Memory) (st : State)
    (cb : option HandlerCallback) :
  (forall a, a = GasPrice \/ a = StorageAt \/ a = BatchInfo ->
     forall o tr, run (action_handler a env rt msg st cb) = (o, tr) ->
       all_rpc_to (selected_url rt) tr
       /\ forall r, o = Returns r -> success r = true ->
            method_of r = Some (V (JStr (selected_method rt))))
  /\ (forall o tr, run (action_handler Receipt env rt msg st cb) = (o, tr) ->
        all_rpc_to (receipt_url rt) tr
        /\ forall r, o = Returns r -> success r = true -> method_of r = None)
  /\ (forall v n,
        (present rt "ALCHEMY_API_KEY" = true \/ present rt "ZKEVM_RPC_URL" = true) ->
        llm_extract env rt st blockDetailsByNumberTemplate "getBlockDetailsByNumberAction"
        = Returns v ->
        truthy (get "error" v) = false ->
        get "blockNumber" v = JNum n ->
        n <> 0%Z ->
        exists r tr,
          run (action_handler BlockDetailsByNumber env rt msg st cb) = (Returns r, tr)
          /\ network_calls tr = block_requests env rt n
          /\ match block_found env rt n with
             | Some (b, m) =>
                 success r = true /\ method_of r = Some (V (JStr m))
                 /\ lookup "block" (data r) = Some (V b)
             | None =>
                 success r = false
                 /\ exists errs,
                      text r = "❌ " ++ GetBlockDetailsByNumber.not_found_message (JNum n) errs
                      /\ lookup "errors" (data r) = Some (V (JArr (map JStr errs)))
             end).
Proof.
  split; [|split].
  - intros a Ha o tr Hrun.
    pose proof (every_run_ok env rt msg st cb a) as H. rewrite Hrun in H.
    destruct H as [Htr Hres].
    destruct Ha as [-> | [-> | ->]]; cbn [trace_ok] in Htr; (split; [tauto|]);
      intros r -> Hs; rewrite Hs in Hres; apply Hres.
  - intros o tr Hrun.
    pose proof (every_run_ok env rt msg st cb Receipt) as H. rewrite Hrun in H.
    destruct H as [Htr Hres]. cbn [trace_ok] in Htr. split; [tauto|].
    intros r -> Hs. rewrite Hs in Hres. apply Hres.
  - intros v n. apply block_details_selection.
Qed.

(** ** Provider failures *)

(** C1, at the input where it fails.  The storage handler has a key, the
    model extracts an address and a position, and the provider's
    [getStorage] throws: the exception leaves the handler, after the
    request and with no result. *)
Theorem storage_provider_failure_escapes :
  run (GetStorageAt.handler
         (Sample.offline (Returns (Sample.storage_request (JNum 1))))
         Sample.with_key (Sample.say "Get storage slot 1 of my contract") None
         (Some hostCallback))
  = (Throws (TError (mkError "network unreachable")),
     [EvModel getStorageAtTemplate;
      EvRpc (JStr "https://polygonzkevm-mainnet.g.alchemy.com/v2/demo-key")
            (GetStorage (JStr Sample.contract) (JNum 1) (JStr "latest"))]).
Proof. vm_compute. reflexivity. Qed.

(** The sibling: the gas-price handler catches what its provider throws. *)
Lemma gas_price_provider_failure_reported
    (env : Env) (rt : IAgentRuntime) (msg : Memory) (st : State)
    (cb : option HandlerCallback) (t : Thrown) :
  (present rt "ALCHEMY_API_KEY" = true \/ present rt "ZKEVM_RPC_URL" = true) ->
  rpc_send env (selected_url rt) "eth_gasPrice" [] = Throws t ->
  exists r tr,
    run (GetGasPrice.handler env rt msg st cb) = (Returns r, tr)
    /\ success r = false
    /\ text r = "❌ Failed to retrieve gas price: " ++ message_or_string t
    /\ error r = Some (as_Error t).
Proof.
  unfold present, selected_url, alchemy_url, present. intros Hcfg Hsend.
  assert (Hc : negb (truthy (getSetting rt "ALCHEMY_API_KEY"))
               && negb (truthy (getSetting rt "ZKEVM_RPC_URL")) = false).
  { destruct Hcfg as [H | H]; rewrite H; cbn; auto using andb_false_r. }
  unfold_handlers. rewrite Hc. expose.
  destruct (truthy (getSetting rt "ALCHEMY_API_KEY"));
    cbv beta iota zeta delta [app url] in *; rewrite Hsend;
    paths; (do 2 eexists; repeat split; reflexivity).
Qed.

(** Whenever the storage handler gets as far as the provider and
    [getStorage] throws, what was thrown leaves the handler. *)
Lemma storage_provider_failure_always_escapes
    (env : Env) (rt : IAgentRuntime) (msg : Memory) (st : State)
    (cb : option HandlerCallback) (v : JsVal) (t : Thrown) :
  (present rt "ALCHEMY_API_KEY" = true \/ present rt "ZKEVM_RPC_URL" = true) ->
  llm_extract env rt st getStorageAtTemplate "getStorageAtAction" = Returns v ->
  truthy (get "error" v) = false ->
  truthy (get "address" v) = true ->
  truthy (get "position" v) = true ->
  rpc_getStorage env (selected_url rt) (get "address" v) (get "position" v)
    (or_else (get "blockTag" v) (JStr "latest"))
  = Throws t ->
  exists tr, run (GetStorageAt.handler env rt msg st cb) = (Throws t, tr).
Proof.
  unfold present, selected_url, alchemy_url, present.
  intros Hcfg Hllm Herr Haddr Hpos Hget.
  assert (Hc : negb (truthy (getSetting rt "ALCHEMY_API_KEY"))
               && negb (truthy (getSetting rt "ZKEVM_RPC_URL")) = false).
  { destruct Hcfg as [H | H]; rewrite H; cbn; auto using andb_false_r. }
  unfold_handlers. rewrite Hc. expose. rewrite Hllm.
  cbv beta iota zeta delta [app]. rewrite Herr, Haddr, Hpos.
  cbv beta iota zeta delta [negb orb].
  destruct (truthy (getSetting rt "ALCHEMY_API_KEY"));
    cbv beta iota zeta delta [app url] in *; rewrite Hget;
    eexists; reflexivity.
Qed.

(** ** The receipt handler *)

(** C3, at the inputs where it fails.  With no callback supplied, the
    receipt handler throws instead of returning: on a message without a
    hash before any request, and on a message with a hash whose receipt the
    provider returns, after the request. *)
Theorem receipt_without_callback_throws :
  run (GetTransactionReceipt.handler
         (Sample.online (Returns JUndefined) (Some (Sample.receipt (Some 1%Z))))
         Sample.with_key (Sample.say "What happened to my transaction?") None None)
  = (Throws (TError (mkError "callback is not a function")), [])
  /\ run (GetTransactionReceipt.handler
            (Sample.online (Returns JUndefined) (Some (Sample.receipt (Some 1%Z))))
            Sample.with_key (Sample.say ("Get receipt for transaction " ++ Sample.tx_hash))
            None None)
     = (Throws (TError (mkError "callback is not a function")),
        [EvRpc (JStr "https://polygonzkevm-mainnet.g.alchemy.com/v2/demo-key")
               (GetTransactionReceipt Sample.tx_hash)]).
Proof. split; vm_compute; reflexivity. Qed.

(** Without a callback the receipt handler never returns a result. *)
Lemma receipt_without_callback_never_returns
    (env : Env) (rt : IAgentRuntime) (msg : Memory) (st : State) :
  exists tr,
    run (GetTransactionReceipt.handler env rt msg st None)
    = (Throws (TError (mkError "callback is not a function")), tr).
Proof.
  unfold_handlers. expose. cbv beta iota zeta delta [app]. paths;
    eexists; reflexivity.
Qed.

Lemma status_label_spec (rc : TransactionReceipt) :
  (r_status rc = Some 1%Z -> GetTransactionReceipt.status_label rc = "✅ Success")
  /\ (r_status rc <> Some 1%Z -> GetTransactionReceipt.status_label rc = "❌ Failed").
Proof.
  unfold GetTransactionReceipt.status_label. split.
  - intros ->. reflexivity.
  - intros H. destruct (r_status rc) as [[|[p|p|]|p]|]; try reflexivity. congruence.
Qed.

Lemma append_assoc (a b c : string) : (a ++ b) ++ c = a ++ b ++ c.
Proof. induction a as [|x a IH]; cbn; [reflexivity | rewrite IH; reflexivity]. Qed.

Lemma has_line_here (s l n rest : string) :
  has_line (s ++ l ++ n) (s ++ l ++ n ++ rest).
Proof. exists EmptyString, rest. cbn [append]. rewrite !append_assoc. reflexivity. Qed.

Lemma has_line_later (line p x : string) : has_line line x -> has_line line (p ++ x).
Proof.
  intros (b & a & ->). exists (p ++ b), a. rewrite append_assoc. reflexivity.
Qed.

Lemma has_line_earlier (line x y : string) : has_line line x -> has_line line (x ++ y).
Proof.
  intros (b & a & ->). exists b, (a ++ y). rewrite !append_assoc. reflexivity.
Qed.

(** The receipt text has the line "Status: " with the label of the receipt. *)
Lemma receipt_text_status_line (env : Env) (h : string) (rc : TransactionReceipt) :
  has_line ("📊 Status: " ++ GetTransactionReceipt.status_label rc ++ nl)
           (GetTransactionReceipt.receipt_text env h rc).
Proof.
  unfold GetTransactionReceipt.receipt_text. cbv zeta.
  destruct (truthy (opt_string (r_contractAddress rc)));
    destruct (0 <? Datatypes.length (r_logs rc))%nat;
    [ do 2 apply has_line_earlier | apply has_line_earlier
    | apply has_line_earlier | idtac ];
    repeat first [apply has_line_here | apply has_line_later].
Qed.

Lemma or_else_same (a : JsVal) : or_else a a = a.
Proof. unfold or_else. destruct (truthy a); reflexivity. Qed.

(** With a callback, the receipt handler does what C3 says: it reports the
    receipt of the leftmost hash of the message. *)
Lemma receipt_reported_when_callback_given
    (env : Env) (rt : IAgentRuntime) (t : string) (st : State) (c : HandlerCallback)
    (h : string) (rc : TransactionReceipt) :
  Text.match_tx_hash t = Some h ->
  rpc_getTransactionReceipt env (receipt_url rt) h = Returns (Some rc) ->
  exists r tr,
    run (GetTransactionReceipt.handler env rt {| content_text := Some t |} st (Some c))
    = (Returns r, tr)
    /\ success r = true
    /\ text r = GetTransactionReceipt.receipt_text env h rc
    /\ network_calls tr = [EvRpc (receipt_url rt) (GetTransactionReceipt h)].
Proof.
  unfold receipt_url, alchemy_url, present. intros Hm Hr.
  unfold_handlers. expose. cbn [content_text]. rewrite Hm, or_else_same.
  destruct (truthy (getSetting rt "ALCHEMY_API_KEY"));
    cbv beta iota zeta delta [app url] in *; rewrite Hr;
    cbv beta iota zeta delta [app];
    (do 2 eexists; repeat split; reflexivity).
Qed.

(** With a callback, a message without a hash is answered by the request
    for one, and nothing is asked of the provider. *)
Lemma receipt_asks_for_hash_when_callback_given
    (env : Env) (rt : IAgentRuntime) (t : string) (st : State) (c : HandlerCallback) :
  ~ has_tx_hash t ->
  run (GetTransactionReceipt.handler env rt {| content_text := Some t |} st (Some c))
  = (Returns (GetTransactionReceipt.failure GetTransactionReceipt.no_hash_error
                (mkError GetTransactionReceipt.no_hash_error)),
     [EvCallback (GetTransactionReceipt.failure_content
                    GetTransactionReceipt.no_hash_error)]).
Proof.
  intros Hn. apply match_tx_hash_none_iff in Hn.
  unfold_handlers. expose. cbn [content_text]. rewrite Hn. reflexivity.
Qed.

(** ** Not found *)

(** C8, at the input where it fails.  The provider has no receipt for the
    hash and no callback is supplied: the receipt handler throws after the
    request instead of returning the not-found failure. *)
Theorem receipt_not_found_without_callback_throws :
  run (GetTransactionReceipt.handler
         (Sample.online (Returns JUndefined) None)
         Sample.with_key (Sample.say ("Get receipt for transaction " ++ Sample.tx_hash))
         None None)
  = (Throws (TError (mkError "callback is not a function")),
     [EvRpc (JStr "https://polygonzkevm-mainnet.g.alchemy.com/v2/demo-key")
            (GetTransactionReceipt Sample.tx_hash)]).
Proof. vm_compute. reflexivity. Qed.

(** With a callback, a receipt the provider does not have is reported as
    not found. *)
Lemma receipt_not_found_when_callback_given
    (env : Env) (rt : IAgentRuntime) (t : string) (st : State) (c : HandlerCallback)
    (h : string) :
  Text.match_tx_hash t = Some h ->
  rpc_getTransactionReceipt env (receipt_url rt) h = Returns None ->
  exists r tr,
    run (GetTransactionReceipt.handler env rt {| content_text := Some t |} st (Some c))
    = (Returns r, tr)
    /\ success r = false
    /\ text r = "❌ Transaction receipt not found: " ++ h
                ++ ". The transaction may be pending or does not exist."
    /\ error r <> None.
Proof.
  unfold receipt_url, alchemy_url, present. intros Hm Hr.
  unfold_handlers. expose. cbn [content_text]. rewrite Hm, or_else_same.
  destruct (truthy (getSetting rt "ALCHEMY_API_KEY"));
    cbv beta iota zeta delta [app url] in *; rewrite Hr;
    cbv beta iota zeta delta [app];
    (do 2 eexists; repeat split; try reflexivity; discriminate).
Qed.

(** ** The failure mark *)

(** C10, at the inputs where it fails.  The batch handler returns failures
    whose text does not begin with the cross mark, with no credentials and
    again when both batch methods fail: the file writes three other
    characters in its place. *)
Theorem batch_failure_text_lacks_cross_mark :
  (exists r,
     run (GetBatchInfo.handler (Sample.offline (Returns JUndefined)) Sample.no_credentials
            (Sample.say "Get batch info for batch 123 on Polygon zkEVM") None None)
     = (Returns r, [])
     /\ success r = false
     /\ Text.starts_with "❌" (text r) = false
     /\ Text.starts_with GetBatchInfo.failure_mark (text r) = true)
  /\ (exists r tr,
        run (GetBatchInfo.handler (Sample.offline (Returns (Sample.batch_request 123)))
               Sample.with_key
               (Sample.say "Get batch info for batch 123 on Polygon zkEVM") None None)
        = (Returns r, tr)
        /\ success r = false
        /\ Text.starts_with "❌" (text r) = false
        /\ Text.starts_with GetBatchInfo.failure_mark (text r) = true).
Proof.
  split.
  - eexists. split; [vm_compute; reflexivity|]. repeat split; vm_compute; reflexivity.
  - do 2 eexists. split; [vm_compute; reflexivity|]. repeat split; vm_compute; reflexivity.
Qed.

(** ** Counterexamples to the claims as first stated *)

(** C2 as stated fails on the receipt handler: with neither credential it
    asks the public endpoint and succeeds. *)
Lemma receipt_handler_runs_without_configuration :
  present Sample.no_credentials "ALCHEMY_API_KEY" = false
  /\ present Sample.no_credentials "ZKEVM_RPC_URL" = false
  /\ exists r tr,
       run (action_handler Receipt
              (Sample.online (Returns JUndefined) (Some (Sample.receipt (Some 1%Z))))
              Sample.no_credentials
              (Sample.say ("Get receipt for transaction " ++ Sample.tx_hash))
              None (Some hostCallback))
       = (Returns r, tr)
       /\ success r = true
       /\ network_calls tr
          = [EvRpc (JStr "https://zkevm-rpc.com") (GetTransactionReceipt Sample.tx_hash)].
Proof.
  split; [reflexivity|]. split; [reflexivity|].
  do 2 eexists. split; [vm_compute; reflexivity|]. split; reflexivity.
Qed.


(** C5 as stated fails on the receipt handler: with the key present it
    succeeds through the gateway and its result has no method. *)
Lemma receipt_reports_no_method :
  present Sample.with_key "ALCHEMY_API_KEY" = true
  /\ exists r tr,
       run (action_handler Receipt
              (Sample.online (Returns JUndefined) (Some (Sample.receipt (Some 1%Z))))
              Sample.with_key
              (Sample.say ("Get receipt for transaction " ++ Sample.tx_hash))
              None (Some hostCallback))
       = (Returns r, tr)
       /\ success r = true
       /\ method_of r = None.
Proof.
  split; [reflexivity|].
  do 2 eexists. split; [vm_compute; reflexivity|]. split; reflexivity.
Qed.


(** ** The theorems at work on concrete inputs *)

Lemma validate_iff_credential_present_witness :
  action_validate GasPrice Sample.with_key (Sample.say "What is the gas price?") None
  = action_validate GasPrice Sample.with_key_and_signer
      (Sample.say "Deploy my contract") (Some JNull).
Proof.
  apply (proj2 (validate_iff_credential_present GasPrice Sample.with_key
                  Sample.with_key_and_signer
                  (Sample.say "What is the gas price?") (Sample.say "Deploy my contract")
                  None (Some JNull)));
    reflexivity.
Defined.

Lemma missing_configuration_reported_witness :
  exists r tr,
    run (action_handler GasPrice (Sample.offline (Returns JUndefined)) Sample.no_credentials
           (Sample.say "What is the gas price?") None (Some hostCallback))
    = (Returns r, tr)
    /\ success r = false
    /\ Text.contains config_error (text r) = true
    /\ error r = Some (mkError config_error)
    /\ network_calls tr = [] /\ model_calls tr = []
    /\ reported_failure config_error tr.
Proof.
  apply (missing_configuration_reported GasPrice (Sample.offline (Returns JUndefined))
           Sample.no_credentials (Sample.say "What is the gas price?") None
           (Some hostCallback));
    reflexivity.
Defined.


Lemma provider_selection_witness :
  exists r tr,
    run (action_handler BlockDetailsByNumber
           (Sample.gateway_down (Returns (Sample.block_request 12345)))
           Sample.with_key_and_url (Sample.say "get block details for block 12345")
           None None)
    = (Returns r, tr)
    /\ network_calls tr
       = [EvFetch "https://polygonzkevm-mainnet.g.alchemy.com/v2/demo-key"
                  (GetBlockDetailsByNumber.request_body "0x3039");
          EvRpc (JStr "https://zkevm-rpc.com") (GetBlock (JNum 12345) true)]
    /\ (success r = true /\ method_of r = Some (V (JStr "rpc"))
        /\ lookup "block" (data r) = Some (V (JObj [("number", JNum 12345)]))).
Proof.
  apply (proj2 (proj2 (provider_selection
                         (Sample.gateway_down (Returns (Sample.block_request 12345)))
                         Sample.with_key_and_url
                         (Sample.say "get block details for block 12345") None None))
           (Sample.block_request 12345) 12345%Z);
    [left; reflexivity | reflexivity | reflexivity | reflexivity | discriminate].
Defined.

Lemma zero_parameters_rejected_witness :
  (exists r tr m,
     run (GetStorageAt.handler (Sample.offline (Returns (Sample.storage_request (JNum 0))))
            Sample.with_key (Sample.say "Get storage slot 0 of my contract") None None)
     = (Returns r, tr)
     /\ success r = false
     /\ text r = "❌ [getStorageAtAction] Failed to extract storage parameters from input: "
                 ++ m
     /\ network_calls tr = [])
  /\ (exists r tr,
        run (GetBlockDetailsByNumber.handler
               (Sample.offline (Returns (Sample.block_request 0)))
               Sample.with_key (Sample.say "show block 0") None None)
        = (Returns r, tr)
        /\ success r = false
        /\ text r = "❌ Invalid block number extracted from input"
        /\ network_calls tr = []).
Proof.
  split.
  - apply (proj1 (zero_parameters_rejected
                    (Sample.offline (Returns (Sample.storage_request (JNum 0))))
                    Sample.with_key (Sample.say "Get storage slot 0 of my contract")
                    None None (Sample.storage_request (JNum 0)) (or_introl eq_refl)));
      [reflexivity | left; reflexivity].
  - apply (proj1 (proj2 (zero_parameters_rejected
                           (Sample.offline (Returns (Sample.block_request 0)))
                           Sample.with_key (Sample.say "show block 0")
                           None None (Sample.block_request 0) (or_introl eq_refl))));
      reflexivity.
Defined.


(** * More on the handlers *)

(** Both settings absent is excluded by either being present. *)
Ltac have_credentials Hcfg Hc rt :=
  assert (Hc : negb (truthy (getSetting rt "ALCHEMY_API_KEY"))
               && negb (truthy (getSetting rt "ZKEVM_RPC_URL")) = false)
    by (destruct Hcfg as [H | H]; rewrite H; cbn; auto using andb_false_r).


(** ** The hash the receipt handler reads *)

Lemma match_tx_hash_leftmost (t h : string) :
  Text.match_tx_hash t = Some h ->
  exists pre post,
    t = pre ++ h ++ post
    /\ forall p1 p2, pre = p1 ++ p2 -> p2 <> EmptyString ->
         Text.tx_hash_here (p2 ++ h ++ post) = None.
Proof.
  induction t as [|c r IH]; intros H.
  - cbn in H. discriminate.
  - rewrite match_tx_hash_step in H.
    destruct (Text.tx_hash_here (String c r)) as [h'|] eqn:Hh.
    + inversion H; subst.
      destruct (tx_hash_here_sound _ _ Hh) as (x & post & Hs & _).
      exists EmptyString, post. split; [exact Hs|].
      intros p1 p2 Hp Hne. destruct p1; destruct p2; try discriminate Hp.
      contradiction.
    + destruct (IH H) as (pre & post & -> & Hleft).
      exists (String c pre), post. split; [reflexivity|].
      intros p1 p2 Hp Hne. destruct p1 as [|c1 p1].
      * cbn in Hp. subst p2. exact Hh.
      * cbn in Hp. inversion Hp; subst. apply (Hleft p1 p2 eq_refl Hne).
Qed.

(** X1.  What [text.match(/0x[a-fA-F0-9]{64}/)] gives the receipt handler:
    nothing exactly when the text has no 0x followed by 64 hexadecimal
    digits; otherwise 66 characters of the text, 0x and 64 hexadecimal
    digits, and no earlier position of the text starts such a run. *)
Theorem tx_hash_match_spec (t : string) :
  match Text.match_tx_hash t with
  | None => ~ has_tx_hash t
  | Some h =>
      exists pre x post,
        t = pre ++ h ++ post
        /\ h = "0x" ++ x /\ String.length x = 64%nat /\ Text.all_hex x = true
        /\ forall p1 p2, pre = p1 ++ p2 -> p2 <> EmptyString ->
             Text.tx_hash_here (p2 ++ h ++ post) = None
  end.
Proof.
  destruct (Text.match_tx_hash t) as [h|] eqn:H.
  - destruct (match_tx_hash_leftmost _ _ H) as (pre & post & Ht & Hleft).
    destruct (match_tx_hash_sound _ _ H) as (pre' & x & post' & _ & Hx & Hl & Ha).
    exists pre, x, post. repeat split; assumption.
  - apply match_tx_hash_none_iff. exact H.
Qed.

Lemma tx_hash_here_needs_x (s : string) :
  all_chars (is_not "x") s = true -> Text.tx_hash_here s = None.
Proof.
  intros H. destruct s as [|c0 [|c1 r]]; try reflexivity.
  - destruct c0 as [[] [] [] [] [] [] [] []]; reflexivity.
  - cbn in H. apply andb_true_iff in H. destruct H as [_ H].
    apply andb_true_iff in H. destruct H as [H1 _].
    unfold is_not in H1. apply negb_true_iff in H1. apply Ascii.eqb_neq in H1.
    unfold Text.tx_hash_here.
    destruct c0 as [[] [] [] [] [] [] [] []]; try reflexivity.
    destruct c1 as [[] [] [] [] [] [] [] []]; try reflexivity.
    congruence.
Qed.

Lemma match_tx_hash_needs_x (t : string) :
  all_chars (is_not "x") t = true -> Text.match_tx_hash t = None.
Proof.
  induction t as [|c r IH]; intros H; [reflexivity|].
  rewrite match_tx_hash_step, (tx_hash_here_needs_x _ H).
  cbn in H. apply andb_true_iff in H. destruct H as [_ H]. exact (IH H).
Qed.

(** X2.  The pattern is case-sensitive in its prefix: a message with no
    lower-case x in it, such as one whose hash is written 0X..., is answered
    by the request for a valid hash, and the provider is not asked. *)
Theorem receipt_needs_lower_case_prefix
    (env : Env) (rt : IAgentRuntime) (t : string) (st : State) (c : HandlerCallback) :
  all_chars (is_not "x") t = true ->
  exists r tr,
    run (GetTransactionReceipt.handler env rt {| content_text := Some t |} st (Some c))
    = (Returns r, tr)
    /\ success r = false
    /\ text r = "❌ " ++ GetTransactionReceipt.no_hash_error
    /\ network_calls tr = [].
Proof.
  intros H. apply match_tx_hash_needs_x, match_tx_hash_none_iff in H.
  rewrite (receipt_asks_for_hash_when_callback_given env rt t st c H).
  do 2 eexists. repeat split; reflexivity.
Qed.

(** X3.  When the provider throws in the receipt handler and a callback is
    there, the handler returns a failure: the text carries the message of an
    Error and "Unknown error" for anything else thrown, the error value is
    what was thrown (wrapped when it is not an Error), and the callback hears
    the same message after the one request. *)
Theorem receipt_provider_failure_reported
    (env : Env) (rt : IAgentRuntime) (t : string) (st : State) (c : HandlerCallback)
    (h : string) (thrown : Thrown) :
  Text.match_tx_hash t = Some h ->
  rpc_getTransactionReceipt env (receipt_url rt) h = Throws thrown ->
  let errText :=
    "Error getting transaction receipt: "
    ++ match thrown with
       | TError e => message e
       | TValue _ => "Unknown error"
       end in
  run (GetTransactionReceipt.handler env rt {| content_text := Some t |} st (Some c))
  = (Returns (GetTransactionReceipt.failure errText (as_Error thrown)),
     [EvRpc (receipt_url rt) (GetTransactionReceipt h);
      EvCallback (GetTransactionReceipt.failure_content errText)]).
Proof.
  unfold receipt_url, alchemy_url, present. intros Hm Hr. cbv zeta.
  unfold_handlers. expose. cbn [content_text]. rewrite Hm, or_else_same.
  destruct (truthy (getSetting rt "ALCHEMY_API_KEY"));
    cbv beta iota zeta delta [app url] in *; rewrite Hr; reflexivity.
Qed.

(** X4.  A message without text, with a callback there: reading the hash
    throws inside the handler's [try], and the handler returns a failure
    that begins "Error getting transaction receipt: ", without a request. *)
Theorem receipt_without_text
    (env : Env) (rt : IAgentRuntime) (st : State) (c : HandlerCallback) :
  exists r tr m,
    run (GetTransactionReceipt.handler env rt {| content_text := None |} st (Some c))
    = (Returns r, tr)
    /\ success r = false
    /\ text r = "❌ Error getting transaction receipt: " ++ m
    /\ network_calls tr = []
    /\ callback_agrees tr r.
Proof.
  unfold_handlers. expose. cbn [content_text]. cbv beta iota zeta delta [app].
  do 3 eexists. split; [reflexivity|]. repeat split; reflexivity.
Qed.

(** X5.  Fields a receipt may lack: when [to] is null or empty the text
    says "Contract Creation", and when the gas price is zero it says "N/A". *)
Theorem receipt_text_missing_fields (env : Env) (h : string) (rc : TransactionReceipt) :
  (r_to rc = None \/ r_to rc = Some EmptyString ->
   has_line ("📍 To: " ++ "Contract Creation" ++ nl)
            (GetTransactionReceipt.receipt_text env h rc))
  /\ (r_gasPrice rc = 0%Z ->
      has_line ("💸 Effective Gas Price: " ++ "N/A" ++ " Gwei")
               (GetTransactionReceipt.receipt_text env h rc)).
Proof.
  split.
  - intros Hto.
    assert (E : to_string (or_else (opt_string (r_to rc)) (JStr "Contract Creation"))
                = "Contract Creation")
      by (destruct Hto as [-> | ->]; reflexivity).
    unfold GetTransactionReceipt.receipt_text. cbv zeta. rewrite E.
    destruct (truthy (opt_string (r_contractAddress rc)));
      destruct (0 <? Datatypes.length (r_logs rc))%nat;
      [ do 2 apply has_line_earlier | apply has_line_earlier
      | apply has_line_earlier | idtac ];
      repeat first [apply has_line_here | apply has_line_later].
  - intros Hg.
    unfold GetTransactionReceipt.receipt_text. cbv zeta. rewrite Hg.
    cbn [Z.eqb negb].
    destruct (truthy (opt_string (r_contractAddress rc)));
      destruct (0 <? Datatypes.length (r_logs rc))%nat;
      [ do 2 apply has_line_earlier | apply has_line_earlier
      | apply has_line_earlier | idtac ];
      repeat first [apply has_line_here | apply has_line_later].
Qed.

(** ** The gas-price handler *)


(** X6.  Fee data is optional in the gas-price handler: when [getFeeData]
    throws, or gives fees that are null or zero, the handler still succeeds,
    with the text it has for no fee data at all, after exactly the two
    requests; [data.feeData] is what the provider gave, or undefined. *)
Theorem gas_price_without_fee_lines
    (env : Env) (rt : IAgentRuntime) (msg : Memory) (st : State)
    (cb : option HandlerCallback) (v : JsVal) (wei : Z) :
  (present rt "ALCHEMY_API_KEY" = true \/ present rt "ZKEVM_RPC_URL" = true) ->
  rpc_send env (selected_url rt) "eth_gasPrice" [] = Returns v ->
  BigInt env v = Returns wei ->
  fees_silent (rpc_getFeeData env (selected_url rt)) ->
  exists r tr,
    run (GetGasPrice.handler env rt msg st cb) = (Returns r, tr)
    /\ success r = true
    /\ text r = GetGasPrice.response_text env wei (DDiv (DOfBigInt wei) d1e9)
                  (selected_method rt) None
    /\ lookup "feeData" (data r)
       = Some (V (fee_data_of (rpc_getFeeData env (selected_url rt))))
    /\ network_calls tr = [EvRpc (selected_url rt) (Send "eth_gasPrice" []);
                           EvRpc (selected_url rt) GetFeeData].
Proof.
  unfold present, selected_url, selected_method, alchemy_url, present.
  intros Hcfg Hsend Hbig Hfee. have_credentials Hcfg Hc rt.
  unfold_handlers. rewrite Hc. expose.
  destruct (truthy (getSetting rt "ALCHEMY_API_KEY"));
    cbv beta iota zeta delta [app url] in *; rewrite Hsend, Hbig;
    destruct (rpc_getFeeData env _) as [f | t]; cbn [fees_silent fee_data_of] in *;
    paths;
    (do 2 eexists; split; [reflexivity|]);
    cbn [success text data];
    (split; [reflexivity|]); (split; [|split; reflexivity]);
    try reflexivity;
    unfold GetGasPrice.response_text;
    destruct Hfee as [[-> | ->] [-> | ->]]; reflexivity.
Qed.

(** X7.  A gas price the handler cannot read as an integer: [BigInt] throws
    inside the [try], the handler returns the failure "Failed to retrieve gas
    price: ..." with what was thrown, and the fee data is never asked for. *)
Theorem gas_price_unreadable_price
    (env : Env) (rt : IAgentRuntime) (msg : Memory) (st : State)
    (cb : option HandlerCallback) (v : JsVal) (t : Thrown) :
  (present rt "ALCHEMY_API_KEY" = true \/ present rt "ZKEVM_RPC_URL" = true) ->
  rpc_send env (selected_url rt) "eth_gasPrice" [] = Returns v ->
  BigInt env v = Throws t ->
  exists tr,
    run (GetGasPrice.handler env rt msg st cb)
    = (Returns (GetGasPrice.failure
                  ("Failed to retrieve gas price: " ++ message_or_string t) (as_Error t)),
       tr)
    /\ network_calls tr = [EvRpc (selected_url rt) (Send "eth_gasPrice" [])].
Proof.
  unfold present, selected_url, alchemy_url, present.
  intros Hcfg Hsend Hbig. have_credentials Hcfg Hc rt.
  unfold_handlers. rewrite Hc. expose.
  destruct (truthy (getSetting rt "ALCHEMY_API_KEY"));
    cbv beta iota zeta delta [app url] in *; rewrite Hsend, Hbig;
    paths; (eexists; split; reflexivity).
Qed.


(** ** The storage handler *)

(** X9.  What the storage handler asks the provider: once the model has
    given a truthy address and a truthy position, exactly one request goes
    out, with the address and the position as the model gave them (the text
    "0" is a position like any other; nothing checks the address) and with
    the block tag "latest" when the model gave none. *)
Theorem storage_parameters_passed_on
    (env : Env) (rt : IAgentRuntime) (msg : Memory) (st : State)
    (cb : option HandlerCallback) (v : JsVal) :
  (present rt "ALCHEMY_API_KEY" = true \/ present rt "ZKEVM_RPC_URL" = true) ->
  llm_extract env rt st getStorageAtTemplate "getStorageAtAction" = Returns v ->
  truthy (get "error" v) = false ->
  truthy (get "address" v) = true ->
  truthy (get "position" v) = true ->
  network_calls (snd (run (GetStorageAt.handler env rt msg st cb)))
  = [EvRpc (selected_url rt)
       (GetStorage (get "address" v) (get "position" v)
          (or_else (get "blockTag" v) (JStr "latest")))].
Proof.
  unfold present, selected_url, alchemy_url, present.
  intros Hcfg Hllm Herr Haddr Hpos. have_credentials Hcfg Hc rt.
  unfold_handlers. rewrite Hc. expose. rewrite Hllm.
  cbv beta iota zeta delta [app]. rewrite Herr, Haddr, Hpos.
  cbv beta iota zeta delta [negb orb].
  destruct (truthy (getSetting rt "ALCHEMY_API_KEY"));
    cbv beta iota zeta delta [app url] in *; paths; reflexivity.
Qed.

(** X10.  An empty slot: when the provider returns the zero word, the
    handler succeeds without reading the value as a number, and the text
    ends with the "Empty/Zero value" interpretation. *)
Theorem storage_empty_slot
    (env : Env) (rt : IAgentRuntime) (msg : Memory) (st : State)
    (cb : option HandlerCallback) (v : JsVal) :
  (present rt "ALCHEMY_API_KEY" = true \/ present rt "ZKEVM_RPC_URL" = true) ->
  llm_extract env rt st getStorageAtTemplate "getStorageAtAction" = Returns v ->
  truthy (get "error" v) = false ->
  truthy (get "address" v) = true ->
  truthy (get "position" v) = true ->
  rpc_getStorage env (selected_url rt) (get "address" v) (get "position" v)
    (or_else (get "blockTag" v) (JStr "latest"))
  = Returns GetStorageAt.zero_word ->
  exists r tr head,
    run (GetStorageAt.handler env rt msg st cb) = (Returns r, tr)
    /\ success r = true
    /\ text r = head ++ "**Value:** `" ++ GetStorageAt.zero_word ++ "`" ++ nl
                ++ "**Method:** " ++ selected_method rt ++ nl ++ nl
                ++ "💡 **Interpretation:** Empty/Zero value"
    /\ lookup "storageValue" (values r) = Some (V (JStr GetStorageAt.zero_word)).
Proof.
  unfold present, selected_url, selected_method, alchemy_url, present.
  intros Hcfg Hllm Herr Haddr Hpos Hget. have_credentials Hcfg Hc rt.
  unfold_handlers. rewrite Hc. expose. rewrite Hllm.
  cbv beta iota zeta delta [app]. rewrite Herr, Haddr, Hpos.
  cbv beta iota zeta delta [negb orb].
  destruct (truthy (getSetting rt "ALCHEMY_API_KEY"));
    cbv beta iota zeta delta [app url] in *; rewrite Hget;
    change (GetStorageAt.interpretation env GetStorageAt.zero_word)
      with (@Returns string "💡 **Interpretation:** Empty/Zero value");
    destruct cb; cbv beta iota zeta delta [app];
    (do 3 eexists; split; [reflexivity|]);
    cbn [success text values];
    (split; [reflexivity|]); (split; [|reflexivity]);
    rewrite <- !append_assoc; reflexivity.
Qed.

Lemma length_drop (n : nat) (s : string) :
  String.length (Text.drop n s) = (String.length s - n)%nat.
Proof.
  revert s. induction n as [|n IH]; intros s; cbn.
  - lia.
  - destruct s as [|c r]; cbn; [reflexivity | apply IH].
Qed.

Lemma all_hex_drop (n : nat) (s : string) :
  Text.all_hex s = true -> Text.all_hex (Text.drop n s) = true.
Proof.
  revert s. induction n as [|n IH]; intros s H; cbn; [exact H|].
  destruct s as [|c r]; [exact H|].
  cbn in H. apply andb_true_iff in H. apply IH, H.
Qed.

(** X11.  The address reading of a stored word.  For a word as providers
    return it (0x and 64 hexadecimal digits) whose value is above 0 and below
    2^160, the interpretation opens with the "Possible Address" line, and the
    address shown is 0x and the last 40 digits of the word: on such words the
    handler's own pattern check never turns the line down. *)
Theorem storage_address_line (env : Env) (x : string) (b : Z) :
  String.length x = 64%nat ->
  Text.all_hex x = true ->
  "0x" ++ x <> GetStorageAt.zero_word ->
  BigInt env (JStr ("0x" ++ x)) = Returns b ->
  (0 < b < 2 ^ 160)%Z ->
  exists rest,
    GetStorageAt.interpretation env ("0x" ++ x)
    = Returns ("🏠 **Possible Address:** `" ++ ("0x" ++ Text.drop 24 x) ++ "`" ++ nl ++ rest).
Proof.
  intros Hl Hh Hz Hb [Hlo Hhi].
  unfold GetStorageAt.interpretation.
  apply String.eqb_neq in Hz. rewrite Hz, Hb.
  apply Z.ltb_lt in Hlo. apply Z.ltb_lt in Hhi. rewrite Hlo, Hhi. cbn [andb].
  assert (Hs : Text.slice_last 40 ("0x" ++ x) = Text.drop 24 x).
  { unfold Text.slice_last. cbn [append String.length]. rewrite Hl. reflexivity. }
  rewrite Hs.
  assert (Ha : Text.is_address ("0x" ++ Text.drop 24 x) = true).
  { cbn [append Text.is_address]. rewrite length_drop, Hl, (all_hex_drop 24 x Hh).
    reflexivity. }
  rewrite Ha. eexists. rewrite !append_assoc. reflexivity.
Qed.

Lemma printable_char_of_code (z : Z) :
  Text.printable (Some z) = true ->
  printable_char (ascii_of_nat (Z.to_nat z)) = true.
Proof.
  cbn. intros H. apply andb_true_iff in H. destruct H as [H1 H2].
  apply Z.ltb_lt in H1. apply Z.ltb_lt in H2.
  unfold printable_char. rewrite nat_ascii_embedding by lia.
  apply andb_true_iff. split; apply Nat.leb_le; lia.
Qed.

Lemma fromCharCodes_printable (l : list (option Z)) :
  all_chars printable_char (Text.fromCharCodes (filter Text.printable l)) = true.
Proof.
  induction l as [|[z|] l IH]; cbn [filter]; [reflexivity | | exact IH].
  destruct (Text.printable (Some z)) eqn:Hp; [|exact IH].
  cbn [Text.fromCharCodes all_chars]. rewrite (printable_char_of_code z Hp), IH.
  reflexivity.
Qed.

Lemma all_chars_skip_spaces (P : ascii -> bool) (s : string) :
  all_chars P s = true -> all_chars P (Text.skip_spaces s) = true.
Proof.
  induction s as [|c r IH]; intros H; cbn; [reflexivity|].
  destruct (Text.is_space c); [|exact H].
  cbn in H. apply andb_true_iff in H. apply IH, H.
Qed.

Lemma all_chars_rev_string (P : ascii -> bool) (s acc : string) :
  all_chars P s = true -> all_chars P acc = true ->
  all_chars P (Text.rev_string acc s) = true.
Proof.
  revert acc. induction s as [|c r IH]; intros acc Hs Ha; cbn; [exact Ha|].
  cbn in Hs. apply andb_true_iff in Hs. destruct Hs as [Hc Hr].
  apply IH; [exact Hr|]. cbn. rewrite Hc, Ha. reflexivity.
Qed.

Lemma all_chars_trim (P : ascii -> bool) (s : string) :
  all_chars P s = true -> all_chars P (Text.trim s) = true.
Proof.
  intros H. unfold Text.trim.
  apply all_chars_rev_string; [|reflexivity].
  apply all_chars_skip_spaces, all_chars_rev_string; [|reflexivity].
  apply all_chars_skip_spaces, H.
Qed.

(** X12.  The text reading of a stored word shows printable characters only:
    whatever the word, the block adds nothing, or the "As Text" line with a
    quoted text that is not empty and whose characters all lie between the
    space and the tilde. *)
Theorem storage_text_is_printable (storageValue : string) :
  GetStorageAt.as_text storageValue = EmptyString
  \/ exists shown,
       GetStorageAt.as_text storageValue = "📝 **As Text:** " ++ dquote ++ shown ++ dquote
       /\ shown <> EmptyString
       /\ all_chars printable_char shown = true.
Proof.
  unfold GetStorageAt.as_text. cbv zeta.
  set (bytes := Text.hex_pairs _ _).
  set (txt := Text.fromCharCodes (filter Text.printable bytes)).
  destruct ((0 <? String.length txt)%nat && (0 <? String.length (Text.trim txt))%nat) eqn:E;
    [right | left; reflexivity].
  exists (Text.trim txt). split; [reflexivity|]. split.
  - apply andb_true_iff in E. destruct E as [_ E]. apply Nat.ltb_lt in E.
    intros Hn. rewrite Hn in E. cbn in E. lia.
  - apply all_chars_trim, fromCharCodes_printable.
Qed.

(** ** Numbers that are not numbers *)

(** X13.  A block number or batch number that is not a JavaScript number
    (the text "12345", say) is turned away before any request: the
    block-details handler answers "Invalid block number extracted from
    input", the batch handler an extraction failure. *)
Theorem non_numbers_rejected
    (env : Env) (rt : IAgentRuntime) (msg : Memory) (st : State)
    (cb : option HandlerCallback) (v : JsVal) :
  (present rt "ALCHEMY_API_KEY" = true \/ present rt "ZKEVM_RPC_URL" = true) ->
  truthy (get "error" v) = false ->
  (llm_extract env rt st blockDetailsByNumberTemplate "getBlockDetailsByNumberAction"
   = Returns v ->
   is_number (get "blockNumber" v) = false ->
   exists r tr,
     run (GetBlockDetailsByNumber.handler env rt msg st cb) = (Returns r, tr)
     /\ success r = false
     /\ text r = "❌ Invalid block number extracted from input"
     /\ network_calls tr = [])
  /\ (llm_extract env rt st getBatchInfoTemplate "getBatchInfoAction" = Returns v ->
      is_number (get "batchNumber" v) = false ->
      exists r tr,
        run (GetBatchInfo.handler env rt msg st cb) = (Returns r, tr)
        /\ success r = false
        /\ text r = GetBatchInfo.failure_mark
                    ++ " [getBatchInfoAction] Failed to extract batch number from input: "
                    ++ "Invalid batch number received from LLM."
        /\ network_calls tr = []).
Proof.
  unfold present. intros Hcfg Herr. have_credentials Hcfg Hc rt.
  split; intros Hllm Hnum;
    unfold_handlers; rewrite Hc; expose; rewrite Hllm;
    cbv beta iota zeta delta [app]; rewrite Herr; cbv beta iota zeta;
    rewrite Hnum; cbn [negb]; rewrite orb_true_r;
    destruct cb; cbv beta iota zeta delta [app];
    (do 2 eexists; repeat split; reflexivity).
Qed.

(** ** The block-details handler *)

(** Brings the block-details handler to its first request for block [n]. *)
Ltac to_first_request Hcfg Hllm Herr Hnum Hn rt n :=
  let Hc := fresh "Hc" in
  let Ht := fresh "Ht" in
  have_credentials Hcfg Hc rt;
  assert (Ht : truthy (JNum n) = true)
    by (cbn; apply negb_true_iff, Z.eqb_neq, Hn);
  unfold_handlers; rewrite Hc; expose; rewrite Hllm;
  cbv beta iota zeta delta [app]; rewrite Herr; cbv beta iota zeta;
  rewrite Hnum, Ht;
  cbv beta iota zeta delta [negb orb is_number typeof GetBlockDetailsByNumber.number_value];
  unfold_steps; expose.

(** X14.  An HTTP error of the gateway with no plain endpoint to fall back
    on: the handler returns the not-found failure for the block, and its one
    error message names the status code and the status text. *)
Theorem block_http_error_reported
    (env : Env) (rt : IAgentRuntime) (msg : Memory) (st : State)
    (cb : option HandlerCallback) (v : JsVal) (n : Z) (response : Response) :
  present rt "ALCHEMY_API_KEY" = true ->
  present rt "ZKEVM_RPC_URL" = false ->
  llm_extract env rt st blockDetailsByNumberTemplate "getBlockDetailsByNumberAction"
  = Returns v ->
  truthy (get "error" v) = false ->
  get "blockNumber" v = JNum n ->
  n <> 0%Z ->
  net_fetch env (alchemy_url rt)
    (GetBlockDetailsByNumber.request_body ("0x" ++ toString16 n))
  = Returns response ->
  ok response = false ->
  exists r tr,
    run (GetBlockDetailsByNumber.handler env rt msg st cb) = (Returns r, tr)
    /\ success r = false
    /\ text r = "❌ " ++ GetBlockDetailsByNumber.not_found_message (JNum n)
                          ["Alchemy API failed: Alchemy API returned status "
                           ++ dec (status response) ++ ": " ++ statusText response]
    /\ network_calls tr
       = [EvFetch (alchemy_url rt)
            (GetBlockDetailsByNumber.request_body ("0x" ++ toString16 n))].
Proof.
  unfold present, alchemy_url. intros Hk Hu Hllm Herr Hnum Hn Hfetch Hok.
  assert (Hcfg : truthy (getSetting rt "ALCHEMY_API_KEY") = true
                 \/ truthy (getSetting rt "ZKEVM_RPC_URL") = true) by (left; exact Hk).
  to_first_request Hcfg Hllm Herr Hnum Hn rt n.
  rewrite Hk, Hu. cbv beta iota zeta delta [app negb andb orb url].
  rewrite Hfetch. cbv beta iota zeta. rewrite Hok. cbv beta iota zeta delta [app negb].
  destruct cb; cbv beta iota zeta delta [app];
    (do 2 eexists; repeat split; reflexivity).
Qed.



(** ** The batch handler *)

(** Brings the batch handler to its first request for batch [n]. *)
Ltac to_batch_request Hcfg Hllm Herr Hnum Hn rt n :=
  let Hc := fresh "Hc" in
  let Ht := fresh "Ht" in
  have_credentials Hcfg Hc rt;
  assert (Ht : truthy (JNum n) = true)
    by (cbn; apply negb_true_iff, Z.eqb_neq, Hn);
  unfold batch_by_number, batch_alternative, batch_of, selected_url, selected_method,
    alchemy_url, present;
  unfold_handlers; rewrite Hc; expose; rewrite Hllm;
  cbv beta iota zeta delta [app]; rewrite Herr; cbv beta iota zeta;
  rewrite Hnum, Ht;
  cbv beta iota zeta delta [negb orb is_number typeof app];
  destruct (truthy (getSetting rt "ALCHEMY_API_KEY"));
  cbv beta iota zeta delta [app negb andb orb url]; rewrite ?Hnum.

(** X17.  The alternative method: when [zkevm_getBatchByNumber] throws, the
    handler sends [zkevm_getBatch] with the same number to the same
    endpoint, and a batch it answers with is reported as a success. *)
Theorem batch_alternative_method
    (env : Env) (rt : IAgentRuntime) (msg : Memory) (st : State)
    (cb : option HandlerCallback) (v : JsVal) (n : Z) (t : Thrown) (d : JsVal) :
  (present rt "ALCHEMY_API_KEY" = true \/ present rt "ZKEVM_RPC_URL" = true) ->
  llm_extract env rt st getBatchInfoTemplate "getBatchInfoAction" = Returns v ->
  truthy (get "error" v) = false ->
  get "batchNumber" v = JNum n ->
  n <> 0%Z ->
  rpc_send env (selected_url rt) "zkevm_getBatchByNumber" [JNum n] = Throws t ->
  rpc_send env (selected_url rt) "zkevm_getBatch" [JNum n] = Returns d ->
  truthy d = true ->
  exists r tr,
    run (GetBatchInfo.handler env rt msg st cb) = (Returns r, tr)
    /\ success r = true
    /\ text r = GetBatchInfo.response_text (batch_of env rt n d) []
    /\ lookup "batchInfo" (data r)
       = Some (V (GetBatchInfo.BatchInfo_value (batch_of env rt n d)))
    /\ network_calls tr = [batch_by_number rt n; batch_alternative rt n].
Proof.
  unfold present at 1 2. intros Hcfg Hllm Herr Hnum Hn H1 H2 Hd.
  revert H1 H2.
  to_batch_request Hcfg Hllm Herr Hnum Hn rt n; intros H1 H2;
    rewrite H1; cbv beta iota zeta delta [app]; rewrite H2;
    cbv beta iota zeta delta [app]; rewrite Hd; cbv beta iota zeta delta [app];
    destruct cb; cbv beta iota zeta delta [app];
    (do 2 eexists; repeat split; reflexivity).
Qed.



Lemma or_else_falsy (a b : JsVal) : truthy a = false -> or_else a b = b.
Proof. intros H. unfold or_else. rewrite H. reflexivity. Qed.

(** X20.  A batch with no status and no transactions: the handler reports
    the status as "unknown", stores the count 0 in [data.batchInfo], and
    shows the count as "N/A". *)
Theorem batch_defaults_shown
    (env : Env) (rt : IAgentRuntime) (msg : Memory) (st : State)
    (cb : option HandlerCallback) (v : JsVal) (n : Z) (d : JsVal) :
  (present rt "ALCHEMY_API_KEY" = true \/ present rt "ZKEVM_RPC_URL" = true) ->
  llm_extract env rt st getBatchInfoTemplate "getBatchInfoAction" = Returns v ->
  truthy (get "error" v) = false ->
  get "batchNumber" v = JNum n ->
  n <> 0%Z ->
  rpc_send env (selected_url rt) "zkevm_getBatchByNumber" [JNum n] = Returns d ->
  truthy d = true ->
  truthy (get "status" d) = false ->
  truthy (get "transactionCount" d) = false ->
  exists r tr b,
    run (GetBatchInfo.handler env rt msg st cb) = (Returns r, tr)
    /\ success r = true
    /\ lookup "batchInfo" (data r) = Some (V (GetBatchInfo.BatchInfo_value b))
    /\ GetBatchInfo.batch_status b = JStr "unknown"
    /\ GetBatchInfo.transactionCount b = JNum 0
    /\ has_line ("**Status:** unknown" ++ nl) (text r)
    /\ has_line ("**Transaction Count:** N/A" ++ nl) (text r).
Proof.
  unfold present at 1 2. intros Hcfg Hllm Herr Hnum Hn H1 Hd Hs Hc.
  revert H1.
  to_batch_request Hcfg Hllm Herr Hnum Hn rt n; intros H1;
    rewrite H1; cbv beta iota zeta delta [app]; rewrite Hd;
    cbv beta iota zeta delta [app];
    destruct cb; cbv beta iota zeta delta [app];
    (do 3 eexists; split; [reflexivity|]); (split; [reflexivity|]);
    (split; [reflexivity|]);
    cbn [GetBatchInfo.batch_status GetBatchInfo.transactionCount text];
    rewrite !(or_else_falsy _ (JStr "unknown") Hs), !(or_else_falsy _ (JNum 0) Hc);
    (split; [reflexivity|]); (split; [reflexivity|]);
    unfold GetBatchInfo.response_text;
    cbn [GetBatchInfo.batch_status GetBatchInfo.transactionCount GetBatchInfo.batchNumber
         to_string or_else truthy Z.eqb negb];
    (split;
     [ do 6 apply has_line_later;
       exact (has_line_here "**Status:** " "unknown" nl _)
     | do 12 apply has_line_later;
       exact (has_line_here "**Transaction Count:** " "N/A" nl _) ]).
Qed.

(** ** What every run keeps to *)

(** Settles [run_tidy] at the end of one path. *)
Ltac tidy_leaf :=
  cbv [run_tidy callback_agrees result_coherent retrieved_flag max_requests
       callbacks is_callback ends_with_callback
       GetGasPrice.failure GetStorageAt.failure GetTransactionReceipt.failure
       GetBlockDetailsByNumber.failure GetBatchInfo.failure
       GetGasPrice.failure_content GetStorageAt.failure_content
       GetTransactionReceipt.failure_content GetBlockDetailsByNumber.failure_content
       GetBatchInfo.failure_content
       success text values data error c_text c_content
       failure_mark GetBatchInfo.failure_mark
       lookup String.eqb Ascii.eqb Bool.eqb andb
       network_calls model_calls filter is_network is_model
       List.length Nat.leb app];
  repeat match goal with
         | |- _ /\ _ => split
         | |- exists _, _ => eexists
         | |- _ <> _ => discriminate
         | |- True => exact I
         | |- _ = _ => reflexivity
         | |- _ -> _ => intro
         end.

Ltac tidy_paths a rt cb :=
  let P := fresh "P" in
  set (P := run_tidy a cb);
  unfold_handlers; unfold_steps; expose;
  destruct cb;
  cbv beta iota zeta delta [app negb andb orb url];
  paths; subst P; tidy_leaf.

Section Tidy.

Variables (env : Env) (rt : IAgentRuntime) (msg : Memory) (st : State).
Variable cb : option HandlerCallback.

Lemma gas_price_run_tidy : run_tidy GasPrice cb (run (GetGasPrice.handler env rt msg st cb)).
Proof. tidy_paths GasPrice rt cb. Qed.

Lemma storage_run_tidy : run_tidy StorageAt cb (run (GetStorageAt.handler env rt msg st cb)).
Proof. tidy_paths StorageAt rt cb. Qed.

Lemma receipt_run_tidy :
  run_tidy Receipt cb (run (GetTransactionReceipt.handler env rt msg st cb)).
Proof. tidy_paths Receipt rt cb. Qed.

Lemma block_details_run_tidy :
  run_tidy BlockDetailsByNumber cb (run (GetBlockDetailsByNumber.handler env rt msg st cb)).
Proof. tidy_paths BlockDetailsByNumber rt cb. Qed.

Lemma batch_info_run_tidy : run_tidy BatchInfo cb (run (GetBatchInfo.handler env rt msg st cb)).
Proof. tidy_paths BatchInfo rt cb. Qed.

End Tidy.

Lemma every_run_tidy (a : Action) (env : Env) (rt : IAgentRuntime) (msg : Memory)
    (st : State) (cb : option HandlerCallback) :
  run_tidy a cb (run (action_handler a env rt msg st cb)).
Proof.
  destruct a; cbv [action_handler].
  - apply gas_price_run_tidy.
  - apply storage_run_tidy.
  - apply receipt_run_tidy.
  - apply block_details_run_tidy.
  - apply batch_info_run_tidy.
Qed.

(** ** Every handler *)

(** X21.  Whenever a handler that was given a callback returns a result, it
    has invoked the callback exactly once, as the last thing it did, and with
    the [success] flag of the result it returns. *)
Theorem callback_told_once
    (a : Action) (env : Env) (rt : IAgentRuntime) (msg : Memory) (st : State)
    (h : HandlerCallback) (r : ActionResult) (tr : Trace) :
  run (action_handler a env rt msg st (Some h)) = (Returns r, tr) ->
  ends_with_callback tr = true
  /\ exists c, callbacks tr = [EvCallback c]
               /\ lookup "success" (c_content c) = Some (V (JBool (success r))).
Proof.
  intros Hrun. pose proof (every_run_tidy a env rt msg st (Some h)) as H.
  rewrite Hrun in H. destruct H as (_ & _ & _ & (Hend & Hcb) & _).
  split; [exact Hend|].
  destruct (callbacks tr) as [|[| | |c] [|]]; try contradiction.
  exists c. split; [reflexivity | exact Hcb].
Qed.

(** X22.  A handler whose failure escapes as an exception has told the
    callback nothing. *)
Theorem escaped_failure_is_silent
    (a : Action) (env : Env) (rt : IAgentRuntime) (msg : Memory) (st : State)
    (cb : option HandlerCallback) (t : Thrown) (tr : Trace) :
  run (action_handler a env rt msg st cb) = (Throws t, tr) ->
  callbacks tr = [].
Proof.
  intros Hrun. pose proof (every_run_tidy a env rt msg st cb) as H.
  rewrite Hrun in H. destruct H as (_ & _ & _ & Hcb & _).
  destruct cb; exact Hcb.
Qed.

(** X23.  A returned result agrees with itself: the "...Retrieved" flag in
    [values] equals [success]; a success has no error value and no
    [values.error]; a failure has an error value, and one message that is
    [values.errorMessage], [data.error] and, after the file's mark and a
    space, the text. *)
Theorem results_are_coherent
    (a : Action) (env : Env) (rt : IAgentRuntime) (msg : Memory) (st : State)
    (cb : option HandlerCallback) (r : ActionResult) (tr : Trace) :
  run (action_handler a env rt msg st cb) = (Returns r, tr) ->
  result_coherent a r.
Proof.
  intros Hrun. pose proof (every_run_tidy a env rt msg st cb) as H.
  rewrite Hrun in H. destruct H as (_ & _ & _ & _ & Hr & _). exact Hr.
Qed.

(** X24.  No handler retries: one invocation sends at most [max_requests]
    requests (one for storage and receipts, two for the others), never the
    same request twice, and asks the model at most once. *)
Theorem no_request_repeated
    (a : Action) (env : Env) (rt : IAgentRuntime) (msg : Memory) (st : State)
    (cb : option HandlerCallback) :
  let tr := snd (run (action_handler a env rt msg st cb)) in
  (List.length (network_calls tr) <= max_requests a)%nat
  /\ NoDup (network_calls tr)
  /\ (List.length (model_calls tr) <= 1)%nat.
Proof.
  cbv zeta. pose proof (every_run_tidy a env rt msg st cb) as H.
  destruct (run (action_handler a env rt msg st cb)) as [o tr]. cbn [snd].
  destruct H as (Hlen & Hdiff & Hmodel & _).
  apply Nat.leb_le in Hlen. apply Nat.leb_le in Hmodel.
  split; [exact Hlen|]. split; [|exact Hmodel].
  assert (Hmax : (max_requests a <= 2)%nat) by (destruct a; cbn; lia).
  destruct (network_calls tr) as [|e1 [|e2 [|e3 l]]].
  - constructor.
  - constructor; [intros []|constructor].
  - constructor; [intros [E|[]]; apply Hdiff; symmetry; exact E|].
    constructor; [intros []|constructor].
  - cbn in Hlen. lia.
Qed.

(** X25.  No success without a request: a result with [success = true] is
    returned only after at least one request was sent to an endpoint. *)
Theorem no_success_without_request
    (a : Action) (env : Env) (rt : IAgentRuntime) (msg : Memory) (st : State)
    (cb : option HandlerCallback) (r : ActionResult) (tr : Trace) :
  run (action_handler a env rt msg st cb) = (Returns r, tr) ->
  success r = true ->
  network_calls tr <> [].
Proof.
  intros Hrun. pose proof (every_run_tidy a env rt msg st cb) as H.
  rewrite Hrun in H. destruct H as (_ & _ & _ & _ & _ & Hr). exact Hr.
Qed.

(** ** The properties at work *)

Lemma receipt_needs_lower_case_prefix_witness :
  exists r tr,
    run (GetTransactionReceipt.handler (Sample.offline (Returns JUndefined)) Sample.with_key
           {| content_text := Some "Receipt for 0X1234567890ABCDEF please" |} None
           (Some hostCallback))
    = (Returns r, tr)
    /\ success r = false
    /\ text r = "❌ " ++ GetTransactionReceipt.no_hash_error
    /\ network_calls tr = [].
Proof.
  apply (receipt_needs_lower_case_prefix (Sample.offline (Returns JUndefined))
           Sample.with_key "Receipt for 0X1234567890ABCDEF please" None hostCallback).
  reflexivity.
Defined.

Lemma receipt_provider_failure_reported_witness :
  run (GetTransactionReceipt.handler (Sample.offline (Returns JUndefined)) Sample.with_key
         {| content_text := Some ("Get receipt for transaction " ++ Sample.tx_hash) |} None
         (Some hostCallback))
  = (Returns (GetTransactionReceipt.failure
                "Error getting transaction receipt: network unreachable"
                (mkError "network unreachable")),
     [EvRpc (receipt_url Sample.with_key) (GetTransactionReceipt Sample.tx_hash);
      EvCallback (GetTransactionReceipt.failure_content
                    "Error getting transaction receipt: network unreachable")]).
Proof.
  apply (receipt_provider_failure_reported (Sample.offline (Returns JUndefined))
           Sample.with_key ("Get receipt for transaction " ++ Sample.tx_hash) None
           hostCallback Sample.tx_hash (TError (mkError "network unreachable")));
    reflexivity.
Defined.

Lemma receipt_without_text_witness :
  exists r tr m,
    run (GetTransactionReceipt.handler (Sample.offline (Returns JUndefined)) Sample.with_key
           {| content_text := None |} None (Some hostCallback))
    = (Returns r, tr)
    /\ success r = false
    /\ text r = "❌ Error getting transaction receipt: " ++ m
    /\ network_calls tr = []
    /\ callback_agrees tr r.
Proof.
  apply (receipt_without_text (Sample.offline (Returns JUndefined)) Sample.with_key None
           hostCallback).
Defined.

Lemma receipt_text_missing_fields_witness :
  has_line ("📍 To: " ++ "Contract Creation" ++ nl)
           (GetTransactionReceipt.receipt_text (Sample.offline (Returns JUndefined))
              Sample.tx_hash Cases.creation)
  /\ has_line ("💸 Effective Gas Price: " ++ "N/A" ++ " Gwei")
              (GetTransactionReceipt.receipt_text (Sample.offline (Returns JUndefined))
                 Sample.tx_hash Cases.creation).
Proof.
  split.
  - apply (proj1 (receipt_text_missing_fields (Sample.offline (Returns JUndefined))
                    Sample.tx_hash Cases.creation)).
    left. reflexivity.
  - apply (proj2 (receipt_text_missing_fields (Sample.offline (Returns JUndefined))
                    Sample.tx_hash Cases.creation)).
    reflexivity.
Defined.

Lemma gas_price_without_fee_lines_witness :
  exists r tr,
    run (GetGasPrice.handler
           Cases.plain_price
           Sample.with_key (Sample.say "What is the gas price?") None (Some hostCallback))
    = (Returns r, tr)
    /\ success r = true
    /\ text r = GetGasPrice.response_text
                  Cases.plain_price
                  1000000000 (DDiv (DOfBigInt 1000000000) d1e9)
                  (selected_method Sample.with_key) None
    /\ lookup "feeData" (data r) = Some (V (fee_data_of (Returns Cases.no_fees)))
    /\ network_calls tr = [EvRpc (selected_url Sample.with_key) (Send "eth_gasPrice" []);
                           EvRpc (selected_url Sample.with_key) GetFeeData].
Proof.
  apply (gas_price_without_fee_lines
           Cases.plain_price
           Sample.with_key (Sample.say "What is the gas price?") None (Some hostCallback)
           (JNum 1000000000) 1000000000%Z).
  - left. reflexivity.
  - reflexivity.
  - reflexivity.
  - split; [left | right]; reflexivity.
Defined.

Lemma gas_price_unreadable_price_witness :
  exists tr,
    run (GetGasPrice.handler Cases.null_price Sample.with_key
           (Sample.say "What is the gas price?") None None)
    = (Returns (GetGasPrice.failure
                  ("Failed to retrieve gas price: "
                   ++ message_or_string (TError (mkError "Cannot convert to a BigInt")))
                  (as_Error (TError (mkError "Cannot convert to a BigInt")))),
       tr)
    /\ network_calls tr = [EvRpc (selected_url Sample.with_key) (Send "eth_gasPrice" [])].
Proof.
  apply (gas_price_unreadable_price
           Cases.null_price Sample.with_key (Sample.say "What is the gas price?") None None JNull
           (TError (mkError "Cannot convert to a BigInt"))).
  - left. reflexivity.
  - reflexivity.
  - reflexivity.
Defined.


Lemma storage_parameters_passed_on_witness :
  network_calls
    (snd (run (GetStorageAt.handler
                 (Sample.online (Returns (Sample.storage_request (JStr "0"))) None)
                 Sample.with_key (Sample.say "Get storage slot 0 of my contract") None None)))
  = [EvRpc (selected_url Sample.with_key)
       (GetStorage (JStr Sample.contract) (JStr "0") (JStr "latest"))].
Proof.
  apply (storage_parameters_passed_on
           (Sample.online (Returns (Sample.storage_request (JStr "0"))) None)
           Sample.with_key (Sample.say "Get storage slot 0 of my contract") None None
           (Sample.storage_request (JStr "0")));
    [left; reflexivity | reflexivity ..].
Defined.

Lemma storage_empty_slot_witness :
  exists r tr head,
    run (GetStorageAt.handler
           (Sample.online (Returns (Sample.storage_request (JNum 1))) None)
           Sample.with_key (Sample.say "Get storage slot 1 of my contract") None
           (Some hostCallback))
    = (Returns r, tr)
    /\ success r = true
    /\ text r = head ++ "**Value:** `" ++ GetStorageAt.zero_word ++ "`" ++ nl
                ++ "**Method:** " ++ selected_method Sample.with_key ++ nl ++ nl
                ++ "💡 **Interpretation:** Empty/Zero value"
    /\ lookup "storageValue" (values r) = Some (V (JStr GetStorageAt.zero_word)).
Proof.
  apply (storage_empty_slot
           (Sample.online (Returns (Sample.storage_request (JNum 1))) None)
           Sample.with_key (Sample.say "Get storage slot 1 of my contract") None
           (Some hostCallback) (Sample.storage_request (JNum 1)));
    [left; reflexivity | reflexivity ..].
Defined.

Lemma storage_address_line_witness :
  exists rest,
    GetStorageAt.interpretation (Cases.storing ("0x" ++ Cases.address_word) (Returns JUndefined))
      ("0x" ++ Cases.address_word)
    = Returns ("🏠 **Possible Address:** `" ++ ("0x" ++ Text.drop 24 Cases.address_word)
               ++ "`" ++ nl ++ rest).
Proof.
  eapply (storage_address_line
            (Cases.storing ("0x" ++ Cases.address_word) (Returns JUndefined))
            Cases.address_word).
  - reflexivity.
  - reflexivity.
  - discriminate.
  - reflexivity.
  - vm_compute. split; reflexivity.
Defined.

Lemma non_numbers_rejected_witness :
  (exists r tr,
     run (GetBlockDetailsByNumber.handler (Sample.offline (Returns Cases.numbers_as_text))
            Sample.with_key (Sample.say "show block 12345") None None)
     = (Returns r, tr)
     /\ success r = false
     /\ text r = "❌ Invalid block number extracted from input"
     /\ network_calls tr = [])
  /\ (exists r tr,
        run (GetBatchInfo.handler (Sample.offline (Returns Cases.numbers_as_text))
               Sample.with_key (Sample.say "show batch 12345") None None)
        = (Returns r, tr)
        /\ success r = false
        /\ text r = GetBatchInfo.failure_mark
                    ++ " [getBatchInfoAction] Failed to extract batch number from input: "
                    ++ "Invalid batch number received from LLM."
        /\ network_calls tr = []).
Proof.
  split.
  - apply (proj1 (non_numbers_rejected (Sample.offline (Returns Cases.numbers_as_text))
                    Sample.with_key (Sample.say "show block 12345") None None
                    Cases.numbers_as_text (or_introl eq_refl) eq_refl));
      reflexivity.
  - apply (proj2 (non_numbers_rejected (Sample.offline (Returns Cases.numbers_as_text))
                    Sample.with_key (Sample.say "show batch 12345") None None
                    Cases.numbers_as_text (or_introl eq_refl) eq_refl));
      reflexivity.
Defined.

Lemma block_http_error_reported_witness :
  exists r tr,
    run (GetBlockDetailsByNumber.handler
           (Cases.http_error (Returns (Sample.block_request 12345))) Sample.with_key
           (Sample.say "show block 12345") None (Some hostCallback))
    = (Returns r, tr)
    /\ success r = false
    /\ text r = "❌ " ++ GetBlockDetailsByNumber.not_found_message (JNum 12345)
                          ["Alchemy API failed: Alchemy API returned status "
                           ++ dec (status Cases.server_error) ++ ": "
                           ++ statusText Cases.server_error]
    /\ network_calls tr
       = [EvFetch (alchemy_url Sample.with_key)
            (GetBlockDetailsByNumber.request_body ("0x" ++ toString16 12345))].
Proof.
  apply (block_http_error_reported
           (Cases.http_error (Returns (Sample.block_request 12345))) Sample.with_key
           (Sample.say "show block 12345") None (Some hostCallback)
           (Sample.block_request 12345) 12345%Z Cases.server_error);
    [reflexivity | reflexivity | reflexivity | reflexivity | reflexivity
     | discriminate | reflexivity | reflexivity].
Defined.



Lemma batch_alternative_method_witness :
  exists r tr,
    run (GetBatchInfo.handler
           (Cases.second_method_only (JObj [("status", JStr "verified")])
              (Returns (Sample.batch_request 7)))
           Sample.with_key (Sample.say "show batch 7") None (Some hostCallback))
    = (Returns r, tr)
    /\ success r = true
    /\ text r = GetBatchInfo.response_text
                  (batch_of (Cases.second_method_only (JObj [("status", JStr "verified")])
                               (Returns (Sample.batch_request 7)))
                            Sample.with_key 7 (JObj [("status", JStr "verified")])) []
    /\ lookup "batchInfo" (data r)
       = Some (V (GetBatchInfo.BatchInfo_value
                    (batch_of (Cases.second_method_only (JObj [("status", JStr "verified")])
                                 (Returns (Sample.batch_request 7)))
                              Sample.with_key 7 (JObj [("status", JStr "verified")]))))
    /\ network_calls tr = [batch_by_number Sample.with_key 7;
                           batch_alternative Sample.with_key 7].
Proof.
  apply (batch_alternative_method
           (Cases.second_method_only (JObj [("status", JStr "verified")])
              (Returns (Sample.batch_request 7)))
           Sample.with_key (Sample.say "show batch 7") None (Some hostCallback)
           (Sample.batch_request 7) 7%Z (TError (mkError "connection refused"))
           (JObj [("status", JStr "verified")]));
    [left; reflexivity | reflexivity | reflexivity | reflexivity
     | discriminate | reflexivity | reflexivity | reflexivity].
Defined.



Lemma batch_defaults_shown_witness :
  exists r tr b,
    run (GetBatchInfo.handler
           (Cases.first_method (JObj [("transactionCount", JNum 0)])
              (Returns (Sample.batch_request 7)))
           Sample.with_key (Sample.say "show batch 7") None None)
    = (Returns r, tr)
    /\ success r = true
    /\ lookup "batchInfo" (data r) = Some (V (GetBatchInfo.BatchInfo_value b))
    /\ GetBatchInfo.batch_status b = JStr "unknown"
    /\ GetBatchInfo.transactionCount b = JNum 0
    /\ has_line ("**Status:** unknown" ++ nl) (text r)
    /\ has_line ("**Transaction Count:** N/A" ++ nl) (text r).
Proof.
  apply (batch_defaults_shown
           (Cases.first_method (JObj [("transactionCount", JNum 0)])
              (Returns (Sample.batch_request 7)))
           Sample.with_key (Sample.say "show batch 7") None None
           (Sample.batch_request 7) 7%Z (JObj [("transactionCount", JNum 0)]));
    [left; reflexivity | reflexivity | reflexivity | reflexivity
     | discriminate | reflexivity | reflexivity | reflexivity | reflexivity].
Defined.

Lemma callback_told_once_witness :
  exists r tr,
    run (action_handler Receipt
           (Sample.online (Returns JUndefined) (Some (Sample.receipt (Some 1%Z))))
           Sample.with_key (Sample.say ("Get receipt for transaction " ++ Sample.tx_hash))
           None (Some hostCallback))
    = (Returns r, tr)
    /\ success r = true
    /\ ends_with_callback tr = true
    /\ exists c, callbacks tr = [EvCallback c]
                 /\ lookup "success" (c_content c) = Some (V (JBool (success r))).
Proof.
  do 2 eexists. split; [lazy; reflexivity|]. split; [reflexivity|].
  apply (callback_told_once Receipt
           (Sample.online (Returns JUndefined) (Some (Sample.receipt (Some 1%Z))))
           Sample.with_key (Sample.say ("Get receipt for transaction " ++ Sample.tx_hash))
           None hostCallback).
  reflexivity.
Defined.

Lemma escaped_failure_is_silent_witness :
  exists t tr,
    run (action_handler StorageAt
           (Sample.offline (Returns (Sample.storage_request (JNum 1))))
           Sample.with_key (Sample.say "Get storage slot 1 of my contract") None
           (Some hostCallback))
    = (Throws t, tr)
    /\ callbacks tr = [].
Proof.
  do 2 eexists. split; [lazy; reflexivity|].
  apply (escaped_failure_is_silent StorageAt
           (Sample.offline (Returns (Sample.storage_request (JNum 1))))
           Sample.with_key (Sample.say "Get storage slot 1 of my contract") None
           (Some hostCallback) (TError (mkError "network unreachable"))).
  reflexivity.
Defined.

Lemma results_are_coherent_witness :
  exists r tr,
    run (action_handler BatchInfo (Sample.offline (Returns (Sample.batch_request 7)))
           Sample.with_key (Sample.say "show batch 7") None None)
    = (Returns r, tr)
    /\ result_coherent BatchInfo r.
Proof.
  do 2 eexists. split; [lazy; reflexivity|].
  eapply (results_are_coherent BatchInfo (Sample.offline (Returns (Sample.batch_request 7)))
            Sample.with_key (Sample.say "show batch 7") None None).
  lazy. reflexivity.
Defined.

Lemma no_success_without_request_witness :
  exists r tr,
    run (action_handler GasPrice Cases.plain_price Sample.with_key
           (Sample.say "What is the gas price?") None None)
    = (Returns r, tr)
    /\ success r = true
    /\ network_calls tr <> [].
Proof.
  do 2 eexists. split; [lazy; reflexivity|]. split; [reflexivity|].
  eapply (no_success_without_request GasPrice Cases.plain_price Sample.with_key
            (Sample.say "What is the gas price?") None None);
    [lazy; reflexivity | reflexivity].
Defined.
